(** * Reuters multiclass classification: the [Model] wrapper class

    A shallow embedding of [Reuters_multiclass_classification/model.py].
    The class [Model] wraps a Keras network: [build] fixes the topology,
    [train], [evaluate] and [predict] delegate to the network, [save] and
    [load] move it to and from disk, [plot_history] draws the training
    curves.

    Conventions of the embedding.
    - Floating-point tensors are real-valued ([R]): rounding is not part of
      the model, the numeric statements are those of exact arithmetic.
    - A Keras network is a heap object; the wrapper holds a reference to it
      ([self.model]).  The heap, the disk with its directories, the I/O
      trace and the pyplot state form the [State] every method threads.
    - A Python exception is the [Raise] result of the method monad [M]. *)

From Stdlib Require Import Reals Lra ZArith Ascii String.
From stdpp Require Import gmap strings list fin_maps pretty.

Set Warnings "-abstract-large-number".

Local Open Scope string_scope.
Local Open Scope list_scope.

(* ===================================================================== *)
(** ** Tensors *)
(* ===================================================================== *)

Module Tensor.

(** A rank-1 tensor is a list of reals, a rank-2 tensor a list of rows. *)
Definition vec := list R.
Definition mat := list vec.

Definition vsum (v : vec) : R := foldr Rplus 0%R v.

(** [dot x w] is [sum_i x[i] * w i]. *)
Fixpoint dot_from (i : nat) (x : vec) (w : nat -> R) : R :=
  match x with
  | [] => 0%R
  | xi :: x' => (xi * w i + dot_from (S i) x' w)%R
  end.
Definition dot (x : vec) (w : nat -> R) : R := dot_from 0 x w.

(** Shape test of a rank-2 tensor: every row has [width] entries. *)
Definition has_width (width : nat) (m : mat) : bool :=
  forallb (fun row => Nat.eqb (length row) width) m.

(** Index of the first maximal entry ([numpy.argmax]). *)
Fixpoint argmax_from (i best : nat) (bestv : R) (v : vec) : nat :=
  match v with
  | [] => best
  | x :: v' =>
      if Rlt_dec bestv x then argmax_from (S i) i x v'
      else argmax_from (S i) best bestv v'
  end.
Definition argmax (v : vec) : nat :=
  match v with
  | [] => 0
  | x :: v' => argmax_from 1 0 x v'
  end.

Definition mean (v : vec) : R := (vsum v / INR (length v))%R.

(** A probability distribution over [n] classes. *)
Definition distribution (n : nat) (p : vec) : Prop :=
  length p = n /\ Forall (fun q => (0 <= q)%R) p /\ vsum p = 1%R.

End Tensor.
Export Tensor.

(* ===================================================================== *)
(** ** Layers and networks *)
(* ===================================================================== *)

Inductive Activation := relu | softmax.
Inductive Loss := categorical_crossentropy.

(** [layers.Dense(units, activation=...)] together with its parameters:
    [kernel i j] weighs input [i] for unit [j], [bias j] is added to it. *)
Record Dense := mkDense {
  units : nat;
  activation : Activation;
  kernel : nat -> nat -> R;
  bias : nat -> R;
}.

Definition relu_fn (v : vec) : vec := map (Rmax 0) v.
Definition softmax_fn (v : vec) : vec :=
  map (fun z => (exp z / vsum (map exp v))%R) v.

Definition activate (a : Activation) (v : vec) : vec :=
  match a with
  | relu => relu_fn v
  | softmax => softmax_fn v
  end.

(** Pre-activations of a dense layer: one affine form per unit. *)
Definition affine (d : Dense) (x : vec) : vec :=
  map (fun j => (dot x (fun i => kernel d i j) + bias d j)%R) (seq 0 (units d)).

Definition dense_apply (d : Dense) (x : vec) : vec :=
  activate (activation d) (affine d x).

Section Network.

(** The optimizer's slot variables are opaque to the wrapper. *)
Context {OptState : Type}.

(** A compiled [models.Model]: topology, parameters, compile arguments
    and optimizer state. *)
Record Network := mkNetwork {
  name : string;
  input_dim : nat;
  layers : list Dense;
  optimizer : string;
  loss : Loss;
  metrics : list string;
  opt_state : OptState;
}.

Definition forward (net : Network) (x : vec) : vec :=
  foldl (fun h d => dense_apply d h) x (layers net).

(** Width of the last layer (of the input when there is no layer). *)
Definition output_dim (net : Network) : nat :=
  foldl (fun _ d => units d) (input_dim net) (layers net).

Definition topology (net : Network) : list (nat * Activation) :=
  map (fun d => (units d, activation d)) (layers net).

(** A file holds the finitely many weights of each layer: the kernel
    entries of the rows below the layer's input width and of the columns
    below its units, and one bias per unit.  [stored_layers fan_in ls] are
    the layers as they are read back from such tables (every other entry
    is zero), [stored net] the network a file of [net] gives back. *)
Fixpoint stored_layers (fan_in : nat) (ls : list Dense) : list Dense :=
  match ls with
  | [] => []
  | d :: ls' =>
      mkDense (units d) (activation d)
        (fun i j => if Nat.ltb i fan_in && Nat.ltb j (units d)
                    then kernel d i j else 0%R)
        (fun j => if Nat.ltb j (units d) then bias d j else 0%R)
      :: stored_layers (units d) ls'
  end.

Definition stored (net : Network) : Network :=
  mkNetwork (name net) (input_dim net)
    (stored_layers (input_dim net) (layers net))
    (optimizer net) (loss net) (metrics net) (opt_state net).

End Network.
Arguments Network : clear implicits.

(** The framework's fuzz factor, [1e-7]. *)
Definition epsilon : R := (/ 10000000)%R.

(** [clip_by_value(q, epsilon, 1 - epsilon)]. *)
Definition clip (q : R) : R := Rmax epsilon (Rmin (1 - epsilon) q).

(** [losses.categorical_crossentropy] of one sample: the predictions are
    scaled to sum 1 and clipped to [[epsilon, 1 - epsilon]], the loss is
    [- sum_j y[j] * ln p[j]] of the result. *)
Definition crossentropy (y p : vec) : R :=
  (- vsum (zip_with (fun yj pj => yj * ln (clip (pj / vsum p))) y p))%R.

(** The [accuracy] metric of one sample against a one-hot label. *)
Definition hit (y p : vec) : R :=
  if decide (argmax y = argmax p) then 1%R else 0%R.

(* ===================================================================== *)
(** ** File paths ([os.path], POSIX flavour) *)
(* ===================================================================== *)

Module Path.

Definition is_sep (c : ascii) : bool := Ascii.eqb c "/"%char.

Definition starts_with_sep (s : string) : bool :=
  match s with
  | String c _ => is_sep c
  | EmptyString => false
  end.

Fixpoint ends_with_sep (s : string) : bool :=
  match s with
  | EmptyString => false
  | String c EmptyString => is_sep c
  | String _ r => ends_with_sep r
  end.

Definition is_empty (s : string) : bool :=
  match s with EmptyString => true | _ => false end.

(** [os.path.join(a, b)]: an absolute [b] discards [a]; otherwise the
    two are glued, with a separator unless [a] is empty or ends in one. *)
Definition join (a b : string) : string :=
  if starts_with_sep b then b
  else if is_empty a || ends_with_sep a then a +:+ b
  else a +:+ "/" +:+ b.

Fixpoint contains_sep (s : string) : bool :=
  match s with
  | EmptyString => false
  | String c r => is_sep c || contains_sep r
  end.

(** [p[:p.rfind('/') + 1]]: [p] up to and including its last separator. *)
Fixpoint head_part (p : string) : string :=
  match p with
  | EmptyString => EmptyString
  | String c r => if contains_sep p then String c (head_part r) else EmptyString
  end.

Fixpoint all_sep (s : string) : bool :=
  match s with
  | EmptyString => true
  | String c r => is_sep c && all_sep r
  end.

(** [s.rstrip('/')]. *)
Fixpoint rstrip_sep (s : string) : string :=
  match s with
  | EmptyString => EmptyString
  | String c r =>
      let r' := rstrip_sep r in
      if is_sep c && is_empty r' then EmptyString else String c r'
  end.

(** [os.path.dirname(p)]. *)
Definition dirname (p : string) : string :=
  let head := head_part p in
  if negb (is_empty head) && negb (all_sep head) then rstrip_sep head else head.

End Path.

(* ===================================================================== *)
(** ** The runtime the script runs in *)
(* ===================================================================== *)

Abbreviation loc := positive.

Inductive Exn :=
| KeyError (key : string)
| ValueError (msg : string)
| OSError (path : string)
| FileNotFoundError (path : string)
| AttributeError (attr : string)
(** Any other exception class, by name. *)
| OtherError (class : string)
(** A reference to no object: it marks the states Python cannot be in,
    none of which a constructed object reaches. *)
| ReferenceError (l : loc).

(** What the wrapper takes from its environment without looking inside:
    the optimizer's numerics, the weight initialiser, the framework's
    automatic model names, the name under which it logs the accuracy, what
    it does with arguments [fit] is not written for, and the location of
    the script. *)
Class Runtime := {
  OptState : Type;
  (** Optimizer state right after [compile]. *)
  opt_init : OptState;
  (** Default kernel initialiser: [glorot_uniform sd fan_in fan_out i j]. *)
  glorot_uniform : N -> nat -> nat -> nat -> nat -> R;
  (** The random generator's state after one use. *)
  next_seed : N -> N;
  (** Name the framework gives the [n]-th model built in the session. *)
  auto_name : nat -> string;
  (** One epoch of minibatch RMSprop over the training split: the new
      parameters of the layer at each position, the new optimizer state
      and the epoch's training loss and accuracy. *)
  rmsprop_epoch :
    Network OptState -> mat * mat -> Z -> N ->
    (nat -> (nat -> nat -> R) * (nat -> R)) * OptState * (R * R);
  (** The key of the [accuracy] metric in the logs of an epoch ([acc]
      in the framework the script was written for, [accuracy] in later
      ones); the validation metric has the same key after [val_]. *)
  acc_key : string;
  acc_key_fresh : acc_key <> "loss" /\ acc_key <> "val_loss";
  (** [fit] on arguments other than non-empty, well-shaped splits and a
      positive batch size: whatever parameters and optimizer state it
      leaves, and the error it raises or the history it returns. *)
  fit_irregular :
    Network OptState -> mat * mat -> mat * mat -> Z -> Z -> N ->
    (nat -> (nat -> nat -> R) * (nat -> R)) * OptState * N
    * (Exn + gmap string vec);
  (** [__file__] of the module. *)
  script_file : string;
}.

(* ===================================================================== *)
(** ** Program state *)
(* ===================================================================== *)

(** [History.history]: metric name to one value per finished epoch. *)
Abbreviation History := (gmap string vec).

(** What the script does to its surroundings, in order: the files the
    framework creates and opens on its behalf and the lines the script
    itself prints.  The progress output of the framework is not part of
    the trace. *)
Inductive Event :=
| Write (path : string)
| Read (path : string)
| Stdout (msg : string).

(** *** pyplot *)

Record Line := mkLine {
  line_x : list nat;
  line_y : vec;
  line_fmt : string;
  line_label : string;
}.

Record Axes := mkAxes {
  ax_lines : list Line;
  ax_title : string;
  ax_xlabel : string;
  ax_ylabel : string;
  ax_legend : bool;
}.

Definition empty_axes : Axes := mkAxes [] "" "" "" false.

(** Position of a subplot: [(nrows, ncols, index)]. *)
Abbreviation AxesKey := (nat * nat * nat)%type.

Record Figure := mkFigure {
  fig_axes : gmap (nat * nat * nat) Axes;
  fig_hspace : option R;
}.

Definition empty_figure : Figure := mkFigure ∅ None.

Record Pyplot := mkPyplot {
  current_fig : Figure;
  current_axes : option (nat * nat * nat);
  shown : list Figure;
}.

Definition subplot (k : nat * nat * nat) (p : Pyplot) : Pyplot :=
  let fig := current_fig p in
  let axes := match fig_axes fig !! k with
              | Some _ => fig_axes fig
              | None => <[k := empty_axes]> (fig_axes fig)
              end in
  mkPyplot (mkFigure axes (fig_hspace fig)) (Some k) (shown p).

(** The key of the current axes, [(1, 1, 1)] when none was selected. *)
Definition gca (p : Pyplot) : nat * nat * nat :=
  default (1, 1, 1) (current_axes p).

Definition on_gca (f : Axes -> Axes) (p : Pyplot) : Pyplot :=
  let fig := current_fig p in
  let k := gca p in
  let ax := default empty_axes (fig_axes fig !! k) in
  mkPyplot (mkFigure (<[k := f ax]> (fig_axes fig)) (fig_hspace fig))
           (Some k) (shown p).

Definition add_line (l : Line) (ax : Axes) : Axes :=
  mkAxes (ax_lines ax ++ [l]) (ax_title ax) (ax_xlabel ax) (ax_ylabel ax)
         (ax_legend ax).
Definition set_title (s : string) (ax : Axes) : Axes :=
  mkAxes (ax_lines ax) s (ax_xlabel ax) (ax_ylabel ax) (ax_legend ax).
Definition set_xlabel (s : string) (ax : Axes) : Axes :=
  mkAxes (ax_lines ax) (ax_title ax) s (ax_ylabel ax) (ax_legend ax).
Definition set_ylabel (s : string) (ax : Axes) : Axes :=
  mkAxes (ax_lines ax) (ax_title ax) (ax_xlabel ax) s (ax_legend ax).
Definition set_legend (ax : Axes) : Axes :=
  mkAxes (ax_lines ax) (ax_title ax) (ax_xlabel ax) (ax_ylabel ax) true.

Definition subplots_adjust (hspace : R) (p : Pyplot) : Pyplot :=
  mkPyplot (mkFigure (fig_axes (current_fig p)) (Some hspace))
           (current_axes p) (shown p).

(** The current axes of [p] are those at [k], with content [ax]. *)
Definition focused (p : Pyplot) (k : nat * nat * nat) (ax : Axes) : Prop :=
  current_axes p = Some k /\ fig_axes (current_fig p) !! k = Some ax.

(** [plt.show()] hands the figure to the viewer and starts a new one. *)
Definition show (p : Pyplot) : Pyplot :=
  mkPyplot empty_figure None (shown p ++ [current_fig p]).

(** *** The state every method threads *)

Section Program.

Context `{Runtime}.

Record State := mkState {
  (** attributes of the [Model] object *)
  model : loc;
  train_history : option History;
  model_dir : string;
  (** the interpreter and its surroundings *)
  heap : gmap loc (Network OptState);
  uid : nat;
  seed : N;
  disk : gmap string (Network OptState);
  io : list Event;
  plt : Pyplot;
  (** the directories that exist; no method creates or removes one *)
  dirs : gset string;
}.

Definition set_model (l : loc) (st : State) : State :=
  mkState l (train_history st) (model_dir st) (heap st) (uid st) (seed st)
          (disk st) (io st) (plt st) (dirs st).
Definition set_train_history (h : option History) (st : State) : State :=
  mkState (model st) h (model_dir st) (heap st) (uid st) (seed st)
          (disk st) (io st) (plt st) (dirs st).
Definition set_model_dir (d : string) (st : State) : State :=
  mkState (model st) (train_history st) d (heap st) (uid st) (seed st)
          (disk st) (io st) (plt st) (dirs st).
Definition set_heap (hp : gmap loc (Network OptState)) (st : State) : State :=
  mkState (model st) (train_history st) (model_dir st) hp (uid st) (seed st)
          (disk st) (io st) (plt st) (dirs st).
Definition set_uid (n : nat) (st : State) : State :=
  mkState (model st) (train_history st) (model_dir st) (heap st) n (seed st)
          (disk st) (io st) (plt st) (dirs st).
Definition set_seed (sd : N) (st : State) : State :=
  mkState (model st) (train_history st) (model_dir st) (heap st) (uid st) sd
          (disk st) (io st) (plt st) (dirs st).
Definition set_disk (d : gmap string (Network OptState)) (st : State) : State :=
  mkState (model st) (train_history st) (model_dir st) (heap st) (uid st)
          (seed st) d (io st) (plt st) (dirs st).
Definition set_io (t : list Event) (st : State) : State :=
  mkState (model st) (train_history st) (model_dir st) (heap st) (uid st)
          (seed st) (disk st) t (plt st) (dirs st).
Definition set_plt (p : Pyplot) (st : State) : State :=
  mkState (model st) (train_history st) (model_dir st) (heap st) (uid st)
          (seed st) (disk st) (io st) p (dirs st).
Definition set_dirs (d : gset string) (st : State) : State :=
  mkState (model st) (train_history st) (model_dir st) (heap st) (uid st)
          (seed st) (disk st) (io st) (plt st) d.

(** *** The method monad: state and exceptions *)

Inductive Res (A : Type) :=
| Ok (a : A) (st : State)
| Raise (e : Exn) (st : State).
Global Arguments Ok {A} a st.
Global Arguments Raise {A} e st.

Definition M (A : Type) : Type := State -> Res A.

Definition ret {A} (a : A) : M A := fun st => Ok a st.
Definition bind {A B} (c : M A) (k : A -> M B) : M B :=
  fun st => match c st with
            | Ok a st' => k a st'
            | Raise e st' => Raise e st'
            end.
Definition raise {A} (e : Exn) : M A := fun st => Raise e st.
Definition gets {A} (f : State -> A) : M A := fun st => Ok (f st) st.
Definition modify (f : State -> State) : M unit := fun st => Ok tt (f st).

Definition res_state {A} (r : Res A) : State :=
  match r with Ok _ st => st | Raise _ st => st end.
Definition res_value {A} (r : Res A) : Exn + A :=
  match r with Ok a _ => inr a | Raise e _ => inl e end.
Definition is_ok {A} (r : Res A) : bool :=
  match r with Ok _ _ => true | Raise _ _ => false end.
Definition is_key_error {A} (r : Res A) : bool :=
  match r with Raise (KeyError _) _ => true | _ => false end.

End Program.

Declare Scope method_scope.
Delimit Scope method_scope with method.
Notation "'let*' x ':=' c 'in' k" := (bind c (fun x => k))
  (at level 10, x name, c at level 100, k at level 200) : method_scope.
Notation "'let*' ' p ':=' c 'in' k" := (bind c (fun x => match x with p => k end))
  (at level 10, p pattern, c at level 100, k at level 200) : method_scope.
Notation "c '>>' k" := (bind c (fun _ => k))
  (at level 100, k at level 200, right associativity) : method_scope.
Local Open Scope method_scope.

(* ===================================================================== *)
(** ** The framework calls the wrapper makes *)
(* ===================================================================== *)

(** Keras and pyplot are libraries, not part of the script.  Their calls
    are modelled after their behaviour, as far as the wrapper can observe
    it:
    - on the data the script is written for (two non-empty splits of the
      network's shapes, a positive batch size) [fit] runs the epochs, each
      one an opaque RMSprop pass ([rmsprop_epoch]) followed by the
      validation metrics and [History.on_epoch_end]; on any other
      arguments it does what the runtime says ([fit_irregular]): it may
      raise any exception or return any history, after changing the
      parameters;
    - the accuracy metric is logged under the runtime's [acc_key] and its
      validation twin, whatever names [plot_history] reads;
    - [evaluate] returns the list of the loss and the metric on a
      non-empty split of the network's shapes and the empty list on an
      empty split;
    - [save] creates one file that holds the whole network, and fails
      when the directory of the file does not exist; [load_model] reads
      such a file; a disk is a map from paths to files and a set of
      directories;
    - [plt.plot] refuses sequences of different lengths. *)

Section Keras.

Context `{Runtime}.

Definition deref (l : loc) : M (Network OptState) :=
  fun st => match heap st !! l with
            | Some net => Ok net st
            | None => Raise (ReferenceError l) st
            end.

Definition alloc (net : Network OptState) : M loc :=
  fun st => let l := fresh (dom (heap st)) in
            Ok l (set_heap (<[l := net]> (heap st)) st).

Definition emit (e : Event) : M unit :=
  modify (fun st => set_io (io st ++ [e]) st).

(** [layers.Dense(units, activation)(previous)]: a Glorot-uniform kernel
    for [fan_in] inputs and a zero bias. *)
Definition new_dense (sd : N) (fan_in n : nat) (a : Activation) : Dense :=
  mkDense n a (glorot_uniform sd fan_in n) (fun _ => 0%R).

(** Per-sample losses and hits of a network over a split, averaged. *)
Definition eval_metrics (net : Network OptState) (x y : mat) : R * R :=
  let p := map (forward net) x in
  (mean (zip_with crossentropy y p), mean (zip_with hit y p)).

(** A split of the network's shapes: a non-empty batch of rows of the
    input width, with as many labels of the output width. *)
Definition well_shaped (net : Network OptState) (x y : mat) : bool :=
  negb (Nat.eqb (length x) 0)
  && Nat.eqb (length x) (length y)
  && has_width (input_dim net) x
  && has_width (output_dim net) y.

(** The arguments of [fit] the script is written for. *)
Definition regular (net : Network OptState) (train dev : mat * mat)
    (batch_size : Z) : bool :=
  well_shaped net train.1 train.2 && well_shaped net dev.1 dev.2
  && (0 <? batch_size)%Z.

(** The entries of the logs of one epoch. *)
Definition val_key : string := "val_" +:+ acc_key.
Definition log_keys : list string := ["loss"; acc_key; "val_loss"; val_key].

(** Every series of a history has [n] entries, under the keys of the logs
    only, all of them there once an epoch is over. *)
Definition uniform (n : nat) (h : History) : Prop :=
  forall k, match h !! k with
            | Some v => length v = n /\ k ∈ log_keys
            | None => n = 0 \/ k ∉ log_keys
            end.

(** [History.on_epoch_end]: [history.setdefault(k, []).append(v)] for
    every entry of the epoch's logs. *)
Definition append_log (h : History) (kv : string * R) : History :=
  <[kv.1 := default [] (h !! kv.1) ++ [kv.2]]> h.
Definition on_epoch_end (h : History) (logs : list (string * R)) : History :=
  foldl append_log h logs.

(** Training replaces the parameters of each layer and the optimizer
    state; the topology and the compile arguments stay. *)
Definition set_params (p : nat -> (nat -> nat -> R) * (nat -> R))
    (os : OptState) (net : Network OptState) : Network OptState :=
  mkNetwork (name net) (input_dim net)
    (imap (fun i d => mkDense (units d) (activation d) (p i).1 (p i).2)
          (layers net))
    (optimizer net) (loss net) (metrics net) os.

Fixpoint fit_loop (n : nat) (net : Network OptState) (train dev : mat * mat)
    (batch_size : Z) (sd : N) (h : History)
    : Network OptState * N * History :=
  match n with
  | O => (net, sd, h)
  | S n' =>
      let '(p, os, (tr_loss, tr_acc)) := rmsprop_epoch net train batch_size sd in
      let net' := set_params p os net in
      let '(val_loss, val_acc) := eval_metrics net' dev.1 dev.2 in
      let h' := on_epoch_end h [("loss", tr_loss); (acc_key, tr_acc);
                                ("val_loss", val_loss); (val_key, val_acc)] in
      fit_loop n' net' train dev batch_size (next_seed sd) h'
  end.

(** [model.fit(x, y, batch_size, epochs, validation_data)]: the network
    object is updated in place, the result is the history. *)
Definition keras_fit (l : loc) (train dev : mat * mat)
    (batch_size epochs : Z) : M History :=
  let* net := deref l in
  let* sd := gets seed in
  if regular net train dev batch_size
  then
    let '(net', sd', h) :=
      fit_loop (Z.to_nat epochs) net train dev batch_size sd ∅ in
    modify (fun st => set_seed sd' (set_heap (<[l := net']> (heap st)) st)) >>
    ret h
  else
    let '(p, os, sd', r) :=
      fit_irregular net train dev batch_size epochs sd in
    modify (fun st => set_seed sd'
                        (set_heap (<[l := set_params p os net]> (heap st)) st)) >>
    match r with
    | inl e => raise e
    | inr h => ret h
    end.

(** [model.evaluate(x, y)]: the list of the loss and of the compiled
    metric; nothing to report on an empty split. *)
Definition keras_evaluate (l : loc) (x y : mat) : M (list R) :=
  let* net := deref l in
  if well_shaped net x y
  then let '(loss, acc) := eval_metrics net x y in ret [loss; acc]
  else if Nat.eqb (length x) 0 && Nat.eqb (length y) 0
       then ret []
       else raise (ValueError "evaluate: bad arguments").

(** [model.predict(x)]. *)
Definition keras_predict (l : loc) (x : mat) : M mat :=
  let* net := deref l in
  if has_width (input_dim net) x then ret (map (forward net) x)
  else raise (ValueError "predict: bad input shape").

(** A file can be created where its directory exists; a path without a
    directory part is a file of the working directory.  [dirs] holds every
    spelling under which an existing directory is addressed.  Permissions
    and the space left on the disk are not modelled. *)
Definition writable (path : string) (st : State) : bool :=
  let d := Path.dirname path in
  Path.is_empty d || bool_decide (d ∈ dirs st).

(** [model.save(path)]: topology, weights and optimizer state go into
    one file, created or overwritten; without the directory of the file
    the call fails and nothing is written. *)
Definition keras_save (l : loc) (path : string) : M unit :=
  let* net := deref l in
  let* ok := gets (writable path) in
  if ok
  then emit (Write path) >>
       modify (fun st => set_disk (<[path := stored net]> (disk st)) st)
  else raise (FileNotFoundError path).

(** [models.load_model(path)]: a new network object built from the file. *)
Definition keras_load_model (path : string) : M loc :=
  emit (Read path) >>
  let* d := gets disk in
  match d !! path with
  | Some net => alloc net
  | None => raise (OSError path)
  end.

(** *** pyplot calls *)

Definition plt_do (f : Pyplot -> Pyplot) : M unit :=
  modify (fun st => set_plt (f (plt st)) st).

(** [plt.plot(x, y, fmt, label=...)] refuses sequences of different
    lengths. *)
Definition plt_plot (x : list nat) (y : vec) (fmt label : string) : M unit :=
  if Nat.eqb (length x) (length y)
  then plt_do (on_gca (add_line (mkLine x y fmt label)))
  else raise (ValueError "x and y must have same first dimension").

End Keras.

(* ===================================================================== *)
(** ** The class [Model] *)
(* ===================================================================== *)

Section Model.

Context `{Runtime}.

(** [Model.build]: 10000 inputs, two hidden layers of 64 rectified-linear
    units, 46 softmax outputs; compiled for RMSprop on the categorical
    cross-entropy, reporting accuracy.  The new network becomes
    [self.model] and is returned. *)
Definition build : M loc :=
  let* sd := gets seed in
  let sd1 := next_seed sd in
  let sd2 := next_seed sd1 in
  let input := 10000 in
  let l1 := new_dense sd input 64 relu in
  let l2 := new_dense sd1 64 64 relu in
  let output := new_dense sd2 64 46 softmax in
  modify (set_seed (next_seed sd2)) >>
  let* n := gets uid in
  modify (set_uid (S n)) >>
  let* m := alloc (mkNetwork (auto_name (S n)) input [l1; l2; output]
                     "rmsprop" categorical_crossentropy ["accuracy"]
                     opt_init) in
  modify (set_model m) >>
  gets model.

(** [Model.__init__]. *)
Definition init : M unit :=
  let* m := build in
  modify (set_model m) >>
  modify (set_train_history None) >>
  modify (set_model_dir (Path.join (Path.dirname script_file) "model/")).

(** [Model.save(model, dir)]. *)
Definition save (m : loc) (dir : string) : M unit :=
  let* net := deref m in
  let f_name := name net +:+ ".h5" in
  keras_save m (Path.join dir f_name).

(** [Model.load(dir, model_name)]. *)
Definition load (dir model_name : string) : M loc :=
  let model_path := Path.join dir model_name in
  let* m := keras_load_model model_path in
  modify (set_model m) >>
  gets model.

(** [Model.train(train_set, dev_set, epochs=1, batch_size=512,
    save_model=True)]; an omitted keyword argument is [None] here. *)
Definition train (train_set dev_set : mat * mat)
    (epochs batch_size : option Z) (save_model : option bool)
    : M (History * loc) :=
  let epochs := default 1%Z epochs in
  let batch_size := default 512%Z batch_size in
  let save_model := default true save_model in
  let '(train_data, train_labels) := train_set in
  let '(dev_data, dev_labels) := dev_set in
  let* m := gets model in
  let* h := keras_fit m (train_data, train_labels) (dev_data, dev_labels)
              batch_size epochs in
  modify (set_train_history (Some h)) >>
  (if save_model
   then (let* m := gets model in
         let* d := gets model_dir in
         save m d)
   else ret tt) >>
  emit (Stdout "Model trained successfully and saved in '/model'") >>
  let* th := gets train_history in
  match th with
  | Some history => let* m := gets model in ret (history, m)
  | None => raise (AttributeError "history")
  end.

(** [history[key]]. *)
Definition getitem (history : History) (key : string) : M vec :=
  match history !! key with
  | Some v => ret v
  | None => raise (KeyError key)
  end.

(** [Model.plot_history(history)]. *)
Definition plot_history (history : History) : M unit :=
  let* loss := getitem history "loss" in
  let* val_loss := getitem history "val_loss" in
  let* acc := getitem history "acc" in
  let* val_acc := getitem history "val_acc" in
  let epochs := seq 1 (length loss) in
  plt_do (subplot (2, 1, 1)) >>
  plt_plot epochs loss "bo" "Training loss" >>
  plt_plot epochs val_loss "b" "Validation loss" >>
  plt_do (on_gca (set_title "Training and validation loss")) >>
  plt_do (on_gca (set_xlabel "Epochs")) >>
  plt_do (on_gca (set_ylabel "Loss")) >>
  plt_do (on_gca set_legend) >>
  plt_do (subplot (2, 1, 2)) >>
  plt_plot epochs acc "bo" "Training acc" >>
  plt_plot epochs val_acc "b" "Validation acc" >>
  plt_do (on_gca (set_title "Training and validation accuracy")) >>
  plt_do (on_gca (set_xlabel "Epochs")) >>
  plt_do (on_gca (set_ylabel "Acc")) >>
  plt_do (on_gca set_legend) >>
  plt_do (subplots_adjust (1 / 2)%R) >>
  plt_do show.

(** The keys [plot_history] reads, and the series under a key. *)
Definition required_keys : list string := ["loss"; "val_loss"; "acc"; "val_acc"].
Definition has_keys (history : History) : bool :=
  forallb (fun k => bool_decide (is_Some (history !! k))) required_keys.
Definition series (history : History) (key : string) : vec :=
  default [] (history !! key).
(** Every series is as long as the training loss. *)
Definition same_lengths (history : History) : bool :=
  forallb (fun k => Nat.eqb (length (series history k))
                            (length (series history "loss")))
          required_keys.

(** [a, b = values]: unpacking a sequence into two names. *)
Definition unpack2 (values : list R) : M (R * R) :=
  match values with
  | [a; b] => ret (a, b)
  | _ :: _ :: _ :: _ => raise (ValueError "too many values to unpack (expected 2)")
  | _ => raise (ValueError "not enough values to unpack")
  end.

(** [Model.evaluate(test_set)]. *)
Definition evaluate (test_set : mat * mat) : M (R * R) :=
  let '(test_data, test_labels) := test_set in
  let* m := gets model in
  let* values := keras_evaluate m test_data test_labels in
  let* '(loss, acc) := unpack2 values in
  ret (loss, acc).

(** Truth value of an optional string: [None] and [""] are false. *)
Definition truthy (s : option string) : bool :=
  match s with
  | Some s => negb (Path.is_empty s)
  | None => false
  end.

(** [Model.predict(input, load_model_name=None)]. *)
Definition predict (input : mat) (load_model_name : option string) : M mat :=
  (if truthy load_model_name
   then (let* d := gets model_dir in
         let* m := load d (default "" load_model_name) in
         modify (set_model m))
   else ret tt) >>
  let* m := gets model in
  let* output_probas := keras_predict m input in
  ret output_probas.

(** *** The public methods as a call language *)

Inductive Call :=
| CBuild
| CTrain (train_set dev_set : mat * mat) (epochs batch_size : option Z)
         (save_model : option bool)
| CPlotHistory (history : History)
| CEvaluate (test_set : mat * mat)
| CSave (m : loc) (dir : string)
| CLoad (dir model_name : string)
| CPredict (input : mat) (load_model_name : option string).

(** The state a call leaves behind, whether it returns or raises. *)
Definition run (c : Call) (st : State) : State :=
  match c with
  | CBuild => res_state (build st)
  | CTrain t d e b s => res_state (train t d e b s st)
  | CPlotHistory h => res_state (plot_history h st)
  | CEvaluate t => res_state (evaluate t st)
  | CSave m d => res_state (save m d st)
  | CLoad d n => res_state (load d n st)
  | CPredict x n => res_state (predict x n st)
  end.

(** The file a call asks the framework to load, if any. *)
Definition loads (c : Call) (st : State) : option string :=
  match c with
  | CLoad d n => Some (Path.join d n)
  | CPredict _ nm =>
      if truthy nm then Some (Path.join (model_dir st) (default "" nm)) else None
  | _ => None
  end.

(** The calls that install a new network: [build], and a load (direct or
    through [predict]) whose file exists. *)
Definition replaces (c : Call) (st : State) : bool :=
  match c with
  | CBuild => true
  | _ => match loads c st with
         | Some path => bool_decide (is_Some (disk st !! path))
         | None => false
         end
  end.

(** States of a constructed object: [__init__] ran in some surroundings,
    then any number of method calls. *)
Inductive reachable : State -> Prop :=
| reach_init st0 : reachable (res_state (init st0))
| reach_call c st : reachable st -> reachable (run c st).

(** The held reference points to a live network. *)
Definition live (st : State) : Prop := is_Some (heap st !! model st).

(** A computation that touches the pyplot state only. *)
Definition plt_only {A} (c : M A) : Prop :=
  forall p st, exists p', res_state (c (set_plt p st)) = set_plt p' st.

(** What a prediction with the given arguments reads is the same in the
    two states: the artifacts and the model directory, and the held
    network when no artifact is named. *)
Definition same_source (nm : option string) (st st' : State) : Prop :=
  disk st' = disk st
  /\ model_dir st' = model_dir st
  /\ (truthy nm = false -> heap st' !! model st' = heap st !! model st).

(** The architecture [build] fixes. *)
Definition classifier (net : Network OptState) : Prop :=
  input_dim net = 10000
  /\ topology net = [(64, relu); (64, relu); (46, softmax)].

(** Every network on the heap and every artifact on the disk has it. *)
Definition all_classifiers (st : State) : Prop :=
  (forall l net, heap st !! l = Some net -> classifier net)
  /\ (forall p net, disk st !! p = Some net -> classifier net).

(** A sequence of method calls, first to last. *)
Definition run_all (calls : list Call) (st : State) : State :=
  foldl (fun s c => run c s) st calls.

(** [n] predictions in a row on the same input, same arguments. *)
Fixpoint predict_many (n : nat) (input : mat) (load_model_name : option string)
    : M (list mat) :=
  match n with
  | O => ret []
  | S n' =>
      let* out := predict input load_model_name in
      let* outs := predict_many n' input load_model_name in
      ret (out :: outs)
  end.

End Model.

(* ===================================================================== *)
(** ** A reference runtime and sample data *)
(* ===================================================================== *)

Module Reference.

(** Rows of a one-hot label matrix. *)
Definition one_hot (k n : nat) : vec :=
  map (fun j => if Nat.eqb j k then 1%R else 0%R) (seq 0 n).

(** The parameters a network has, as an optimizer step returns them. *)
Definition params_of (net : Network unit)
    : nat -> (nat -> nat -> R) * (nat -> R) :=
  fun i => match layers net !! i with
           | Some d => (kernel d, bias d)
           | None => (fun _ _ => 0%R, fun _ => 0%R)
           end.

(** A runtime with the automatic names of the framework ([model_1],
    [model_2], ...), an all-zero initialiser, an optimizer that leaves
    the parameters where they are, the metric name [key], and a [fit]
    that raises on everything it is not written for. *)
Definition runtime_logging (key : string)
    (fresh : key <> "loss" /\ key <> "val_loss") : Runtime := {|
  OptState := unit;
  opt_init := tt;
  glorot_uniform := fun _ _ _ _ _ => 0%R;
  next_seed := N.succ;
  auto_name := fun n => "model_" +:+ pretty n;
  rmsprop_epoch := fun net _ _ _ => (params_of net, tt, (0%R, 0%R));
  acc_key := key;
  acc_key_fresh := fresh;
  fit_irregular := fun net _ _ _ _ sd =>
    (params_of net, tt, sd, inl (ValueError "fit"));
  script_file := "/srv/Reuters_multiclass_classification/model.py";
|}.

(** The framework the script was written for, and a later one. *)
Definition runtime : Runtime :=
  runtime_logging "acc" ltac:(split; discriminate).
Definition later_runtime : Runtime :=
  runtime_logging "accuracy" ltac:(split; discriminate).

#[local] Existing Instance runtime.

(** The interpreter before any object exists, on a disk that has the
    directory [model] next to the script and a directory [out]. *)
Definition blank : State :=
  mkState 1%positive None "" ∅ 0 0%N ∅ [] (mkPyplot empty_figure None [])
    {["/srv/Reuters_multiclass_classification/model"; "out"]}.

(** The same on a disk without them. *)
Definition bare : State := set_dirs ∅ blank.

(** A freshly constructed [Model()] under the later framework. *)
Definition later_object : @State later_runtime :=
  res_state (@init later_runtime
               (@mkState later_runtime 1%positive None "" ∅ 0 0%N ∅ []
                  (mkPyplot empty_figure None [])
                  {["/srv/Reuters_multiclass_classification/model"; "out"]})).

(** A freshly constructed [Model()] and the network it holds. *)
Definition fresh_object : State := res_state (init blank).
Definition bare_object : State := res_state (init bare).
Definition first_network : Network OptState :=
  mkNetwork "model_1" 10000
    [new_dense 0%N 10000 64 relu; new_dense 1%N 64 64 relu;
     new_dense 2%N 64 46 softmax]
    "rmsprop" categorical_crossentropy ["accuracy"] tt.

(** The same object after [save(self.model, "out")]. *)
Definition saved_object : State := run (CSave 1%positive "out") fresh_object.

(** A session on a new object: train and save, load the artifact back,
    build anew. *)
Definition session : list Call :=
  [CTrain ([repeat 0%R 10000], [one_hot 3 46]) ([repeat 0%R 10000], [one_hot 3 46])
          (Some 2%Z) None None;
   CLoad "/srv/Reuters_multiclass_classification/model/" "model_1.h5";
   CBuild].

(** One document (no vocabulary word present) of class 3. *)
Definition sample_data : mat := [repeat 0%R 10000].
Definition sample_labels : mat := [one_hot 3 46].
Definition sample_split : mat * mat := (sample_data, sample_labels).

(** A history whose validation loss has one entry too many. *)
Definition ragged_history : History :=
  <["loss" := [1%R]]> (<["val_loss" := [1%R; 2%R]]>
    (<["acc" := [0%R]]> (<["val_acc" := [0%R]]> ∅))).

(** A two-epoch history as [train] returns it. *)
Definition sample_history : History :=
  <["loss" := [2%R; 1%R]]> (<["val_loss" := [2%R; 1%R]]>
    (<["acc" := [0%R; 1%R]]> (<["val_acc" := [0%R; 1%R]]> ∅))).

End Reference.

(** Symbolic execution of a method body. *)
Ltac step_method :=
  unfold bind, ret, raise, gets, modify, emit, alloc, plt_do in *; simpl in *.

(* ===================================================================== *)
(** ** The definitions on sample inputs *)
(* ===================================================================== *)

Example join_relative : Path.join "out" "model_1.h5" = "out/model_1.h5".
Proof. reflexivity. Qed.

Example join_trailing_sep : Path.join "model/" "model_1.h5" = "model/model_1.h5".
Proof. reflexivity. Qed.

Example join_absolute : Path.join "out" "/tmp/m.h5" = "/tmp/m.h5".
Proof. reflexivity. Qed.

Example dirname_script :
  Path.dirname "/srv/Reuters_multiclass_classification/model.py"
  = "/srv/Reuters_multiclass_classification".
Proof. reflexivity. Qed.

Example dirname_bare : Path.dirname "model.py" = "".
Proof. reflexivity. Qed.

Example dirname_root : Path.dirname "//x" = "//".
Proof. reflexivity. Qed.

Example fresh_object_model_dir :
  model_dir Reference.fresh_object
  = "/srv/Reuters_multiclass_classification/model/".
Proof. vm_compute. reflexivity. Qed.

Example fresh_object_holds_first_network :
  heap Reference.fresh_object !! model Reference.fresh_object
  = Some Reference.first_network.
Proof. vm_compute. reflexivity. Qed.

Example plot_sample_history_returns :
  is_ok (plot_history Reference.sample_history Reference.fresh_object) = true.
Proof. vm_compute. reflexivity. Qed.

Example truthy_cases :
  truthy None = false /\ truthy (Some "") = false
  /\ truthy (Some "model_1.h5") = true.
Proof. repeat split. Qed.

(* ===================================================================== *)
(** ** Facts about the numeric layer *)
(* ===================================================================== *)

Lemma vsum_map_scale (c : R) (v : vec) :
  vsum (map (fun z => (z / c)%R) v) = (vsum v / c)%R.
Proof.
  induction v as [|z v IH]; simpl.
  - unfold Rdiv. now rewrite Rmult_0_l.
  - rewrite IH. unfold Rdiv. ring.
Qed.

Lemma vsum_exp_pos (v : vec) : v <> [] -> (0 < vsum (map exp v))%R.
Proof.
  destruct v as [|z v]; [congruence|intros _]. simpl.
  assert (Hnn : (0 <= vsum (map exp v))%R).
  { induction v as [|y v IH]; simpl; [lra|]. pose proof (exp_pos y). lra. }
  pose proof (exp_pos z). lra.
Qed.

Lemma softmax_fn_length (v : vec) : length (softmax_fn v) = length v.
Proof. unfold softmax_fn. now rewrite length_map. Qed.

Lemma softmax_fn_nonneg (v : vec) : Forall (fun p => (0 <= p)%R) (softmax_fn v).
Proof.
  destruct (decide (v = [])) as [->|Hne]; [constructor|].
  pose proof (vsum_exp_pos v Hne) as Hpos.
  unfold softmax_fn. apply Forall_forall. intros p Hp.
  apply list_elem_of_In, in_map_iff in Hp. destruct Hp as (z & <- & _).
  pose proof (exp_pos z). apply Rlt_le, Rdiv_lt_0_compat; assumption.
Qed.

Lemma softmax_fn_sum (v : vec) : v <> [] -> vsum (softmax_fn v) = 1%R.
Proof.
  intros Hne. pose proof (vsum_exp_pos v Hne) as Hpos.
  unfold softmax_fn.
  rewrite <- (map_map exp (fun e => (e / vsum (map exp v))%R)).
  rewrite vsum_map_scale. field. lra.
Qed.

Lemma affine_length (d : Dense) (x : vec) : length (affine d x) = units d.
Proof. unfold affine. now rewrite length_map, length_seq. Qed.

Lemma dense_apply_length (d : Dense) (x : vec) :
  length (dense_apply d x) = units d.
Proof.
  unfold dense_apply, activate, relu_fn.
  destruct (activation d); [rewrite length_map | rewrite softmax_fn_length];
    apply affine_length.
Qed.

Lemma vsum_nonneg (v : vec) : Forall (fun p => (0 <= p)%R) v -> (0 <= vsum v)%R.
Proof. induction 1; simpl; lra. Qed.

Lemma mean_nonneg (v : vec) : Forall (fun p => (0 <= p)%R) v -> (0 <= mean v)%R.
Proof.
  intros Hv. unfold mean. apply Rmult_le_pos; [now apply vsum_nonneg|].
  destruct (length v) as [|n]; [simpl; rewrite Rinv_0; lra|].
  apply Rlt_le, Rinv_0_lt_compat, lt_0_INR. lia.
Qed.

(** Every softmax entry is a probability: positive and at most one. *)
Lemma softmax_fn_range (v : vec) :
  Forall (fun p => (0 < p <= 1)%R) (softmax_fn v).
Proof.
  unfold softmax_fn. apply Forall_forall. intros p Hp.
  apply list_elem_of_In, in_map_iff in Hp. destruct Hp as (z & <- & Hz).
  assert (Hne : v <> []) by (intros ->; inversion Hz).
  pose proof (vsum_exp_pos v Hne) as Hpos. pose proof (exp_pos z) as Hz0.
  assert (Hle : (exp z <= vsum (map exp v))%R).
  { clear Hne Hpos. induction v as [|y v IH]; [inversion Hz|]. simpl.
    assert (Hnn : (0 <= vsum (map exp v))%R).
    { apply vsum_nonneg, Forall_forall. intros e He.
      apply list_elem_of_In, in_map_iff in He. destruct He as (w & <- & _).
      apply Rlt_le, exp_pos. }
    destruct Hz as [->|Hz]; [lra|]. specialize (IH Hz). pose proof (exp_pos y). lra. }
  split; [now apply Rdiv_lt_0_compat|].
  apply (Rmult_le_reg_r (vsum (map exp v))); [assumption|].
  unfold Rdiv. rewrite Rmult_assoc, Rinv_l by lra. lra.
Qed.





Section NetworkFacts.

Context {OptState : Type}.
Implicit Types net : Network OptState.

Lemma forward_snoc net (ls : list Dense) (d : Dense) (x : vec) :
  layers net = ls ++ [d] ->
  forward net x = dense_apply d (foldl (fun h d => dense_apply d h) x ls).
Proof. unfold forward. intros ->. now rewrite foldl_app. Qed.

Lemma output_dim_snoc net (ls : list Dense) (d : Dense) :
  layers net = ls ++ [d] -> output_dim net = units d.
Proof. unfold output_dim. intros ->. now rewrite foldl_app. Qed.

(** A network whose last layer is a softmax layer outputs probability
    vectors of that layer's width. *)
Lemma forward_softmax net (ls : list Dense) (d : Dense) (x : vec) :
  layers net = ls ++ [d] -> activation d = softmax ->
  length (forward net x) = units d
  /\ Forall (fun p => (0 < p <= 1)%R) (forward net x)
  /\ (units d <> 0 -> vsum (forward net x) = 1%R).
Proof.
  intros Hl Ha. rewrite (forward_snoc net ls d x Hl).
  split; [apply dense_apply_length|].
  unfold dense_apply. rewrite Ha. simpl. split; [apply softmax_fn_range|].
  intros Hu. apply softmax_fn_sum. intros Hnil.
  apply (f_equal length) in Hnil. rewrite affine_length in Hnil. now simpl in Hnil.
Qed.

Lemma last_snoc_inv (ls : list Dense) (d : Dense) :
  last ls = Some d -> exists ls', ls = ls' ++ [d].
Proof.
  intros Hlast. destruct (decide (ls = [])) as [->|Hne]; [discriminate|].
  destruct (exists_last Hne) as (ls' & d' & ->).
  rewrite last_snoc in Hlast. injection Hlast as ->. now exists ls'.
Qed.

Lemma dot_from_ext (k : nat) (x : vec) (w w' : nat -> R) :
  (forall i, k <= i < k + length x -> w i = w' i) ->
  dot_from k x w = dot_from k x w'.
Proof.
  revert k. induction x as [|xi x IH]; intros k Hw; [reflexivity|].
  simpl in *. rewrite (Hw k) by lia. rewrite (IH (S k)); [reflexivity|].
  intros i Hi. apply Hw. lia.
Qed.

(** Reading the tables of a layer back gives a layer that acts the same
    on every input of the layer's input width. *)
Lemma stored_layers_forward (ls : list Dense) (fan_in : nat) (x : vec) :
  length x = fan_in ->
  foldl (fun h d => dense_apply d h) x (stored_layers fan_in ls)
  = foldl (fun h d => dense_apply d h) x ls.
Proof.
  revert fan_in x. induction ls as [|d ls IH]; intros fan_in x Hx; [reflexivity|].
  cbn [stored_layers foldl].
  assert (Hd : dense_apply
                 (mkDense (units d) (activation d)
                    (fun i j => if Nat.ltb i fan_in && Nat.ltb j (units d)
                                then kernel d i j else 0%R)
                    (fun j => if Nat.ltb j (units d) then bias d j else 0%R)) x
               = dense_apply d x).
  { unfold dense_apply, affine. cbn [units activation kernel bias]. f_equal.
    apply map_ext_in. intros j Hj. apply in_seq in Hj.
    assert (Hlt : Nat.ltb j (units d) = true) by (apply Nat.ltb_lt; lia).
    rewrite Hlt. f_equal. unfold dot. apply dot_from_ext. intros i Hi.
    assert (Hi' : Nat.ltb i fan_in = true) by (apply Nat.ltb_lt; lia).
    now rewrite Hi'. }
  rewrite Hd. apply IH, dense_apply_length.
Qed.

Lemma stored_forward net (x : vec) :
  length x = input_dim net -> forward (stored net) x = forward net x.
Proof. intros Hx. unfold forward, stored. simpl. now apply stored_layers_forward. Qed.

Lemma stored_layers_topology (ls : list Dense) (fan_in : nat) :
  map (fun d => (units d, activation d)) (stored_layers fan_in ls)
  = map (fun d => (units d, activation d)) ls.
Proof.
  revert fan_in. induction ls as [|d ls IH]; intros fan_in; [reflexivity|].
  simpl. now rewrite IH.
Qed.

Lemma stored_topology net : topology (stored net) = topology net.
Proof. apply stored_layers_topology. Qed.

Lemma stored_layers_output (ls : list Dense) (fan_in a : nat) :
  foldl (fun _ d => units d) a (stored_layers fan_in ls)
  = foldl (fun _ d => units d) a ls.
Proof.
  revert fan_in a. induction ls as [|d ls IH]; intros fan_in a; [reflexivity|].
  simpl. apply IH.
Qed.

Lemma stored_output_dim net : output_dim (stored net) = output_dim net.
Proof. apply stored_layers_output. Qed.

End NetworkFacts.

(* ===================================================================== *)
(** ** Facts about paths *)
(* ===================================================================== *)

Lemma append_assoc (a b c : string) : (a +:+ b) +:+ c = a +:+ b +:+ c.
Proof.
  induction a as [|ch a IH]; [reflexivity|].
  change (String ch ((a +:+ b) +:+ c) = String ch (a +:+ b +:+ c)).
  now rewrite IH.
Qed.

Lemma join_cases (a b : string) :
  Path.join a b =
    if Path.starts_with_sep b then b
    else a +:+ (if Path.is_empty a || Path.ends_with_sep a then "" else "/") +:+ b.
Proof.
  unfold Path.join. destruct (Path.starts_with_sep b); [reflexivity|].
  destruct (Path.is_empty a || Path.ends_with_sep a); reflexivity.
Qed.

(** The second component is always the tail of the joined path. *)
Lemma join_tail (a b : string) : exists pre, Path.join a b = pre +:+ b.
Proof.
  unfold Path.join. destruct (Path.starts_with_sep b); [now exists ""|].
  destruct (Path.is_empty a || Path.ends_with_sep a); [now exists a|].
  exists (a +:+ "/"). now rewrite append_assoc.
Qed.

(* ===================================================================== *)
(** ** Facts about the method monad *)
(* ===================================================================== *)

Section MonadFacts.

Context `{Runtime}.

Lemma bind_ok {A B} (c : M A) (k : A -> M B) (st st' : State) (a : A) :
  c st = Ok a st' -> bind c k st = k a st'.
Proof. unfold bind. now intros ->. Qed.

Lemma bind_raise {A B} (c : M A) (k : A -> M B) (st st' : State) (e : Exn) :
  c st = Raise e st' -> bind c k st = Raise e st'.
Proof. unfold bind. now intros ->. Qed.

Lemma deref_ok (l : loc) (net : Network OptState) (st : State) :
  heap st !! l = Some net -> deref l st = Ok net st.
Proof. unfold deref. now intros ->. Qed.

Lemma state_eta (st : State) :
  mkState (model st) (train_history st) (model_dir st) (heap st) (uid st)
          (seed st) (disk st) (io st) (plt st) (dirs st) = st.
Proof. now destruct st. Qed.

(** A fresh reference is not yet on the heap. *)
Lemma fresh_not_live (st : State) : heap st !! fresh (dom (heap st)) = None.
Proof. apply not_elem_of_dom, is_fresh. Qed.

End MonadFacts.

(* ===================================================================== *)
(** ** The network [build] produces *)
(* ===================================================================== *)

Section BuildFacts.

Context `{Runtime}.

Lemma build_eq (st : State) :
  exists net,
    build st =
      Ok (fresh (dom (heap st)))
         (set_model (fresh (dom (heap st)))
            (set_heap (<[fresh (dom (heap st)) := net]> (heap st))
               (set_uid (S (uid st))
                  (set_seed (next_seed (next_seed (next_seed (seed st)))) st))))
    /\ name net = auto_name (S (uid st))
    /\ input_dim net = 10000
    /\ topology net = [(64, relu); (64, relu); (46, softmax)]
    /\ optimizer net = "rmsprop"
    /\ loss net = categorical_crossentropy
    /\ metrics net = ["accuracy"].
Proof.
  eexists. split; [unfold build; step_method; reflexivity|].
  repeat split.
Qed.

Lemma topology_softmax_last (net : Network OptState) tl n :
  topology net = tl ++ [(n, softmax)] ->
  exists ls d, layers net = ls ++ [d] /\ activation d = softmax /\ units d = n.
Proof.
  unfold topology. intros Ht.
  destruct (decide (layers net = [])) as [Hnil|Hne].
  { rewrite Hnil in Ht. destruct tl; discriminate. }
  destruct (exists_last Hne) as (ls & d & Hl). exists ls, d.
  rewrite Hl, map_app in Ht. simpl in Ht.
  apply app_inj_tail in Ht. destruct Ht as [_ Ht].
  injection Ht as Hu Ha. auto.
Qed.

Lemma predict_held (st : State) (net : Network OptState) (input : mat) :
  heap st !! model st = Some net ->
  has_width (input_dim net) input = true ->
  predict input None st = Ok (map (forward net) input) st.
Proof.
  intros Hnet Hw. unfold predict, keras_predict. step_method.
  rewrite (deref_ok _ _ _ Hnet). now rewrite Hw.
Qed.

End BuildFacts.

(** C1.  [build] returns (and installs as the held network) a network with
    10000 inputs, two hidden dense layers of 64 rectified-linear units and
    a dense softmax layer of 46 units, compiled with the optimizer
    [rmsprop] and the categorical cross-entropy loss; on every batch of
    10000-dimensional rows its prediction is one row per input row, each a
    probability distribution over 46 classes: non-negative entries that
    sum to 1 (in exact arithmetic). *)
Theorem build_gives_classifier `{Runtime} (st : State) (input : mat) :
  has_width 10000 input = true ->
  exists m net st',
    build st = Ok m st'
    /\ model st' = m
    /\ heap st' !! m = Some net
    /\ input_dim net = 10000
    /\ topology net = [(64, relu); (64, relu); (46, softmax)]
    /\ optimizer net = "rmsprop"
    /\ loss net = categorical_crossentropy
    /\ exists out,
         predict input None st' = Ok out st'
         /\ length out = length input
         /\ Forall (distribution 46) out.
Proof.
  intros Hw. destruct (build_eq st) as (net & Hb & _ & Hin & Htop & Hopt & Hloss & _).
  eexists _, net, _. split; [exact Hb|].
  assert (Hheld : heap (set_model (fresh (dom (heap st)))
              (set_heap (<[fresh (dom (heap st)) := net]> (heap st))
                 (set_uid (S (uid st))
                    (set_seed (next_seed (next_seed (next_seed (seed st)))) st))))
            !! fresh (dom (heap st)) = Some net) by (simpl; apply lookup_insert_eq).
  repeat (split; [first [reflexivity | assumption]|]).
  exists (map (forward net) input). split; [|split].
  - apply predict_held; [exact Hheld|]. now rewrite Hin.
  - apply length_map.
  - destruct (topology_softmax_last net [(64, relu); (64, relu)] 46 Htop)
      as (ls & d & Hl & Ha & Hu).
    apply Forall_forall. intros p Hp.
    apply list_elem_of_In, in_map_iff in Hp. destruct Hp as (x & <- & _).
    destruct (forward_softmax net ls d x Hl Ha) as (Hlen & Hrange & Hsum).
    split; [|split].
    + now rewrite Hlen.
    + eapply Forall_impl; [exact Hrange|]. simpl. intros q Hq. lra.
    + apply Hsum. now rewrite Hu.
Qed.

(** [build_gives_classifier] on the sample object of [Reference]. *)
Lemma build_gives_classifier_witness :
  has_width 10000 Reference.sample_data = true
  /\ exists m net st',
       build Reference.blank = Ok m st'
       /\ model st' = m
       /\ heap st' !! m = Some net
       /\ input_dim net = 10000
       /\ topology net = [(64, relu); (64, relu); (46, softmax)]
       /\ optimizer net = "rmsprop"
       /\ loss net = categorical_crossentropy
       /\ exists out,
            predict Reference.sample_data None st' = Ok out st'
            /\ length out = length Reference.sample_data
            /\ Forall (distribution 46) out.
Proof.
  split; [vm_compute; reflexivity|].
  apply (build_gives_classifier Reference.blank Reference.sample_data).
  vm_compute; reflexivity.
Defined.

(* ===================================================================== *)
(** ** Persistence *)
(* ===================================================================== *)

Section PersistenceFacts.

Context `{Runtime}.

Lemma save_eq (st : State) (m : loc) (dir : string) (net : Network OptState) :
  heap st !! m = Some net ->
  save m dir st =
    if writable (Path.join dir (name net +:+ ".h5")) st
    then Ok tt (set_disk (<[Path.join dir (name net +:+ ".h5") := stored net]>
                            (disk st))
                  (set_io (io st ++ [Write (Path.join dir (name net +:+ ".h5"))])
                     st))
    else Raise (FileNotFoundError (Path.join dir (name net +:+ ".h5"))) st.
Proof.
  intros Hnet. unfold save, keras_save. step_method.
  rewrite !(deref_ok _ _ _ Hnet).
  now destruct (writable (Path.join dir (name net +:+ ".h5")) st).
Qed.

Lemma save_dangling (st : State) (m : loc) (dir : string) :
  heap st !! m = None -> save m dir st = Raise (ReferenceError m) st.
Proof. intros Hnone. unfold save, bind, deref. now rewrite Hnone. Qed.

Lemma load_eq (st : State) (dir model_name : string) :
  load dir model_name st =
    let path := Path.join dir model_name in
    let st1 := set_io (io st ++ [Read path]) st in
    match disk st !! path with
    | Some net =>
        let m := fresh (dom (heap st)) in
        Ok m (set_model m (set_heap (<[m := net]> (heap st)) st1))
    | None => Raise (OSError path) st1
    end.
Proof.
  unfold load, keras_load_model. step_method.
  destruct (disk st !! Path.join dir model_name); reflexivity.
Qed.

Lemma keras_predict_state (m : loc) (input : mat) (st : State) :
  res_state (keras_predict m input st) = st.
Proof.
  unfold keras_predict, deref. step_method.
  destruct (heap st !! m) as [net|]; [|reflexivity].
  destruct (has_width (input_dim net) input); reflexivity.
Qed.

Lemma predict_falsy (input : mat) (nm : option string) (st : State) :
  truthy nm = false -> predict input nm st = keras_predict (model st) input st.
Proof.
  intros Hnm. unfold predict. rewrite Hnm. step_method.
  destruct (keras_predict (model st) input st); reflexivity.
Qed.

Lemma predict_truthy (input : mat) (nm : string) (st : State) :
  Path.is_empty nm = false ->
  predict input (Some nm) st =
    match load (model_dir st) nm st with
    | Ok m st1 => keras_predict m input st1
    | Raise e st1 => Raise e st1
    end.
Proof.
  intros Hnm. unfold predict, truthy. rewrite Hnm. simpl.
  rewrite load_eq. unfold bind at 1 2 3. unfold gets at 1.
  rewrite load_eq. simpl.
  destruct (disk st !! Path.join (model_dir st) nm) as [net|]; [|reflexivity].
  step_method. unfold set_model, set_heap, set_io. simpl.
  match goal with |- context [keras_predict ?m ?x ?s] =>
    destruct (keras_predict m x s); reflexivity end.
Qed.

(** The framework's prediction sees the network through its input width
    and its forward pass only. *)
Lemma keras_predict_value (m m' : loc) (input : mat) (st st' : State)
    (net net' : Network OptState) :
  heap st !! m = Some net ->
  heap st' !! m' = Some net' ->
  input_dim net' = input_dim net ->
  (forall x, length x = input_dim net -> forward net' x = forward net x) ->
  res_value (keras_predict m' input st') = res_value (keras_predict m input st).
Proof.
  intros Hnet Hnet' Hin Hfw. unfold keras_predict, bind.
  rewrite (deref_ok _ _ _ Hnet), (deref_ok _ _ _ Hnet'), Hin.
  destruct (has_width (input_dim net) input) eqn:Hw; [|reflexivity].
  unfold ret. simpl. f_equal. apply map_ext_in. intros x Hx. apply Hfw.
  unfold has_width in Hw. rewrite forallb_forall in Hw.
  now apply Nat.eqb_eq, Hw.
Qed.

End PersistenceFacts.

(** C6.  [save] creates or overwrites one file at the path
    [os.path.join(dir, name + ".h5")]: the file name is the network's name
    followed by [.h5], placed in [dir] (the separator is added unless
    [dir] is empty or already ends in one; an absolute file name stands on
    its own).  This needs the directory of that path: when it exists the
    call returns, the file holds the network as it is read back
    ([stored net]: the name, the topology, the compile arguments and the
    optimizer state of [net], and parameters under which every input of
    the network's width has the output it has under [net]), and nothing
    else changes; when it does not exist the call raises
    [FileNotFoundError] and changes nothing. *)
Theorem save_writes_artifact `{Runtime} (st : State) (m : loc) (dir : string)
    (net : Network OptState) :
  heap st !! m = Some net ->
  let f_name := name net +:+ ".h5" in
  let path := Path.join dir f_name in
  save m dir st =
    (if writable path st
     then Ok tt (set_disk (<[path := stored net]> (disk st))
                   (set_io (io st ++ [Write path]) st))
     else Raise (FileNotFoundError path) st)
  /\ (writable path st = true ->
        disk (res_state (save m dir st)) !! path = Some (stored net))
  /\ (forall p, p <> path ->
        disk (res_state (save m dir st)) !! p = disk st !! p)
  /\ path =
       (if Path.starts_with_sep f_name then f_name
        else dir +:+ (if Path.is_empty dir || Path.ends_with_sep dir
                      then "" else "/") +:+ f_name)
  /\ (exists pre, path = pre +:+ name net +:+ ".h5")
  /\ name (stored net) = name net
  /\ input_dim (stored net) = input_dim net
  /\ topology (stored net) = topology net
  /\ (optimizer (stored net), loss (stored net), metrics (stored net))
     = (optimizer net, loss net, metrics net)
  /\ opt_state (stored net) = opt_state net
  /\ (forall x, length x = input_dim net ->
        forward (stored net) x = forward net x).
Proof.
  intros Hnet f_name path. rewrite (save_eq st m dir net Hnet). fold f_name path.
  split; [reflexivity|]. split; [|split].
  - intros ->. simpl. apply lookup_insert_eq.
  - intros p Hp. destruct (writable path st); simpl; [|reflexivity].
    now apply lookup_insert_ne.
  - split; [apply join_cases|]. split; [apply join_tail|].
    repeat (split; [reflexivity|]). split; [apply stored_topology|].
    repeat (split; [reflexivity|]). apply stored_forward.
Qed.

(** [save_writes_artifact] on the sample object of [Reference], whose
    disk has the directory [out]. *)
Lemma save_writes_artifact_witness :
  heap Reference.fresh_object !! 1%positive = Some Reference.first_network
  /\ save 1%positive "out" Reference.fresh_object =
       Ok tt (set_disk (<["out/model_1.h5" := stored Reference.first_network]> ∅)
                (set_io [Write "out/model_1.h5"] Reference.fresh_object)).
Proof.
  split; [vm_compute; reflexivity|].
  apply (save_writes_artifact Reference.fresh_object 1%positive "out"
           Reference.first_network).
  vm_compute; reflexivity.
Defined.

(** C6, the refuted reading.  Not every directory will do: on a disk
    without the directory [out], [save(self.model, "out")] raises and
    writes nothing. *)
Lemma save_missing_directory_raises :
  heap Reference.bare_object !! 1%positive = Some Reference.first_network
  /\ save 1%positive "out" Reference.bare_object
     = Raise (FileNotFoundError "out/model_1.h5") Reference.bare_object
  /\ disk (res_state (save 1%positive "out" Reference.bare_object)) = ∅.
Proof.
  assert (Hnet : heap Reference.bare_object !! 1%positive
                 = Some Reference.first_network) by (vm_compute; reflexivity).
  split; [exact Hnet|]. rewrite (save_eq _ _ "out" _ Hnet).
  split; vm_compute; reflexivity.
Qed.

(** C2.  Saving the held network into an existing directory and loading
    the file back (under the network's name followed by [.h5]), in the same
    process or in any other that finds the file the save wrote, gives a new
    held network with which [predict] answers every input exactly as it
    did before the save: the same rows for a batch of the network's input
    width, the same error for any other. *)
Theorem save_load_roundtrip `{Runtime} (st : State) (dir : string) (input : mat)
    (net : Network OptState) :
  heap st !! model st = Some net ->
  writable (Path.join dir (name net +:+ ".h5")) st = true ->
  exists st1,
    save (model st) dir st = Ok tt st1
    /\ forall st',
         disk st' !! Path.join dir (name net +:+ ".h5")
           = disk st1 !! Path.join dir (name net +:+ ".h5") ->
         exists m st2,
           load dir (name net +:+ ".h5") st' = Ok m st2
           /\ model st2 = m
           /\ heap st' !! m = None
           /\ res_value (predict input None st2)
              = res_value (predict input None st).
Proof.
  intros Hnet Hdir. eexists. split.
  { rewrite (save_eq st (model st) dir net Hnet), Hdir. reflexivity. }
  intros st' Hfile. simpl in Hfile. rewrite lookup_insert_eq in Hfile.
  eexists _, _. split; [rewrite load_eq; simpl; rewrite Hfile; reflexivity|].
  split; [reflexivity|]. split; [apply fresh_not_live|].
  rewrite !predict_falsy by reflexivity.
  apply (keras_predict_value _ _ input _ _ net (stored net) Hnet);
    [simpl; apply lookup_insert_eq | reflexivity | apply stored_forward].
Qed.

(** [save_load_roundtrip] on the sample object of [Reference]. *)
Lemma save_load_roundtrip_witness :
  heap Reference.fresh_object !! model Reference.fresh_object
    = Some Reference.first_network
  /\ writable (Path.join "out" (name Reference.first_network +:+ ".h5"))
       Reference.fresh_object = true
  /\ exists st1,
       save (model Reference.fresh_object) "out" Reference.fresh_object = Ok tt st1
       /\ forall st',
            disk st' !! Path.join "out" (name Reference.first_network +:+ ".h5")
              = disk st1 !! Path.join "out" (name Reference.first_network +:+ ".h5") ->
            exists m st2,
              load "out" (name Reference.first_network +:+ ".h5") st' = Ok m st2
              /\ model st2 = m
              /\ heap st' !! m = None
              /\ res_value (predict Reference.sample_data None st2)
                 = res_value (predict Reference.sample_data None
                                Reference.fresh_object).
Proof.
  split; [vm_compute; reflexivity|]. split; [vm_compute; reflexivity|].
  apply (save_load_roundtrip Reference.fresh_object "out" Reference.sample_data
           Reference.first_network); vm_compute; reflexivity.
Defined.


(* ===================================================================== *)
(** ** Plotting *)
(* ===================================================================== *)

Lemma focused_subplot (k : nat * nat * nat) (p : Pyplot) :
  focused (subplot k p) k (default empty_axes (fig_axes (current_fig p) !! k)).
Proof.
  unfold focused, subplot. simpl. split; [reflexivity|].
  destruct (fig_axes (current_fig p) !! k) as [ax|] eqn:Hk; simpl.
  - exact Hk.
  - apply lookup_insert_eq.
Qed.

Lemma lookup_subplot_ne (k k' : nat * nat * nat) (p : Pyplot) :
  k <> k' ->
  fig_axes (current_fig (subplot k p)) !! k' = fig_axes (current_fig p) !! k'.
Proof.
  intros Hne. unfold subplot. simpl.
  destruct (fig_axes (current_fig p) !! k); [reflexivity|].
  now apply lookup_insert_ne.
Qed.

Lemma focused_on_gca (f : Axes -> Axes) (p : Pyplot) (k : nat * nat * nat)
    (ax : Axes) :
  focused p k ax -> focused (on_gca f p) k (f ax).
Proof.
  intros [Hcur Hax]. unfold focused, on_gca, gca. rewrite Hcur. simpl.
  split; [reflexivity|]. rewrite Hax. simpl. apply lookup_insert_eq.
Qed.

Lemma lookup_on_gca_ne (f : Axes -> Axes) (p : Pyplot) (k k' : nat * nat * nat)
    (ax : Axes) :
  focused p k ax -> k <> k' ->
  fig_axes (current_fig (on_gca f p)) !! k' = fig_axes (current_fig p) !! k'.
Proof.
  intros [Hcur _] Hne. unfold on_gca, gca. rewrite Hcur. simpl.
  now apply lookup_insert_ne.
Qed.

Section PlotFacts.

Context `{Runtime}.

Lemma bind_plt_do {B} (f : Pyplot -> Pyplot) (k : unit -> M B) (st : State) :
  bind (plt_do f) k st = k tt (set_plt (f (plt st)) st).
Proof. reflexivity. Qed.

Lemma getitem_some (h : History) (k : string) (v : vec) (st : State) :
  h !! k = Some v -> getitem h k st = Ok v st.
Proof. unfold getitem. now intros ->. Qed.

Lemma getitem_none (h : History) (k : string) (st : State) :
  h !! k = None -> getitem h k st = Raise (KeyError k) st.
Proof. unfold getitem. now intros ->. Qed.

(** Steps of a drawing: the state stays of the form [set_plt p st]. *)
Lemma plt_do_step {B} (f : Pyplot -> Pyplot) (k : unit -> M B) (p : Pyplot)
    (st : State) :
  bind (plt_do f) k (set_plt p st) = k tt (set_plt (f p) st).
Proof. reflexivity. Qed.

Lemma plt_do_last (f : Pyplot -> Pyplot) (p : Pyplot) (st : State) :
  plt_do f (set_plt p st) = Ok tt (set_plt (f p) st).
Proof. reflexivity. Qed.

Lemma plt_plot_step {B} (x : list nat) (y : vec) (fmt label : string)
    (k : unit -> M B) (p : Pyplot) (st : State) :
  length x = length y ->
  bind (plt_plot x y fmt label) k (set_plt p st) =
    k tt (set_plt (on_gca (add_line (mkLine x y fmt label)) p) st).
Proof. intros Hl. unfold bind, plt_plot. now rewrite Hl, Nat.eqb_refl. Qed.

Lemma plt_plot_mismatch {B} (x : list nat) (y : vec) (fmt label : string)
    (k : unit -> M B) (st : State) :
  length x <> length y ->
  bind (plt_plot x y fmt label) k st =
    Raise (ValueError "x and y must have same first dimension") st.
Proof.
  intros Hl. unfold bind, plt_plot. apply Nat.eqb_neq in Hl. now rewrite Hl.
Qed.

End PlotFacts.

(** C3, as the code has it.  [plot_history] raises [KeyError] exactly when
    one of the four keys [loss], [val_loss], [acc], [val_acc] is missing
    (the error names the first missing key and nothing was drawn); it
    returns exactly when all four are present and the four series have the
    same length, and then one figure was shown with the loss chart in
    subplot (2, 1, 1) and the accuracy chart in subplot (2, 1, 2), two
    lines each over the epochs [1 .. len(loss)].  With all keys present and
    series of different lengths, plotting raises [ValueError]. *)
Theorem plot_history_outcome `{Runtime} (h : History) (st : State) :
  let r := plot_history h st in
  let epochs := seq 1 (length (series h "loss")) in
  let before k :=
    ax_lines (default empty_axes (fig_axes (current_fig (plt st)) !! k)) in
  is_ok r = has_keys h && same_lengths h
  /\ is_key_error r = negb (has_keys h)
  /\ match r with
     | Ok _ st' =>
         exists fig,
           st' = set_plt (mkPyplot empty_figure None (shown (plt st) ++ [fig])) st
           /\ fig_axes fig !! (2, 1, 1) =
                Some (mkAxes (before (2, 1, 1) ++
                                [mkLine epochs (series h "loss") "bo" "Training loss";
                                 mkLine epochs (series h "val_loss") "b" "Validation loss"])
                             "Training and validation loss" "Epochs" "Loss" true)
           /\ fig_axes fig !! (2, 1, 2) =
                Some (mkAxes (before (2, 1, 2) ++
                                [mkLine epochs (series h "acc") "bo" "Training acc";
                                 mkLine epochs (series h "val_acc") "b" "Validation acc"])
                             "Training and validation accuracy" "Epochs" "Acc" true)
           /\ fig_hspace fig = Some (1 / 2)%R
     | Raise (KeyError k) st' => st' = st /\ h !! k = None /\ k ∈ required_keys
     | Raise (ValueError _) _ => has_keys h = true /\ same_lengths h = false
     | Raise _ _ => False
     end.
Proof.
  intros r epochs before. subst r epochs.
  unfold plot_history, has_keys, same_lengths, required_keys, series.
  cbn [forallb].
  destruct (h !! "loss") as [loss|] eqn:Hloss.
  2:{ rewrite (bind_raise _ _ _ _ _ (getitem_none h "loss" st Hloss)).
      rewrite bool_decide_eq_false_2 by (intros [? ?]; discriminate).
      cbn. repeat split; auto. apply list_elem_of_In; simpl; tauto. }
  rewrite (bind_ok _ _ _ _ _ (getitem_some h "loss" loss st Hloss)).
  destruct (h !! "val_loss") as [val_loss|] eqn:Hvl.
  2:{ rewrite (bind_raise _ _ _ _ _ (getitem_none h "val_loss" st Hvl)).
      rewrite (bool_decide_eq_false_2 (is_Some None)) by (intros [? ?]; discriminate).
      rewrite andb_false_r. cbn. repeat split; auto.
      apply list_elem_of_In; simpl; tauto. }
  rewrite (bind_ok _ _ _ _ _ (getitem_some h "val_loss" val_loss st Hvl)).
  destruct (h !! "acc") as [acc|] eqn:Hacc.
  2:{ rewrite (bind_raise _ _ _ _ _ (getitem_none h "acc" st Hacc)).
      rewrite (bool_decide_eq_false_2 (is_Some None)) by (intros [? ?]; discriminate).
      rewrite !andb_false_r. cbn. repeat split; auto.
      apply list_elem_of_In; simpl; tauto. }
  rewrite (bind_ok _ _ _ _ _ (getitem_some h "acc" acc st Hacc)).
  destruct (h !! "val_acc") as [val_acc|] eqn:Hva.
  2:{ rewrite (bind_raise _ _ _ _ _ (getitem_none h "val_acc" st Hva)).
      rewrite (bool_decide_eq_false_2 (is_Some None)) by (intros [? ?]; discriminate).
      rewrite !andb_false_r. cbn. repeat split; auto.
      apply list_elem_of_In; simpl; tauto. }
  rewrite (bind_ok _ _ _ _ _ (getitem_some h "val_acc" val_acc st Hva)).
  rewrite !bool_decide_eq_true_2 by eauto. cbn [default andb].
  unfold Datatypes.id. rewrite Nat.eqb_refl. cbn [andb].
  rewrite bind_plt_do.
  rewrite (plt_plot_step (seq 1 (length loss)) loss) by apply length_seq.
  destruct (decide (length val_loss = length loss)) as [E1|N1].
  2:{ rewrite (plt_plot_mismatch (seq 1 (length loss)) val_loss)
        by (rewrite length_seq; congruence).
      rewrite (proj2 (Nat.eqb_neq _ _) N1). cbn. auto. }
  rewrite (plt_plot_step (seq 1 (length loss)) val_loss)
    by (rewrite length_seq; congruence).
  rewrite (proj2 (Nat.eqb_eq _ _) E1). cbn [andb].
  rewrite !plt_do_step.
  destruct (decide (length acc = length loss)) as [E2|N2].
  2:{ rewrite (plt_plot_mismatch (seq 1 (length loss)) acc)
        by (rewrite length_seq; congruence).
      rewrite (proj2 (Nat.eqb_neq _ _) N2). cbn. auto. }
  rewrite (plt_plot_step (seq 1 (length loss)) acc)
    by (rewrite length_seq; congruence).
  rewrite (proj2 (Nat.eqb_eq _ _) E2). cbn [andb].
  destruct (decide (length val_acc = length loss)) as [E3|N3].
  2:{ rewrite (plt_plot_mismatch (seq 1 (length loss)) val_acc)
        by (rewrite length_seq; congruence).
      rewrite (proj2 (Nat.eqb_neq _ _) N3). cbn. auto. }
  rewrite (plt_plot_step (seq 1 (length loss)) val_acc)
    by (rewrite length_seq; congruence).
  rewrite (proj2 (Nat.eqb_eq _ _) E3). cbn [andb].
  rewrite !plt_do_step, plt_do_last.
  split; [reflexivity|]. split; [reflexivity|].
  eexists. split; [reflexivity|].
  cbn [current_fig show subplots_adjust fig_axes fig_hspace].
  match goal with |- context [subplot (2, 1, 2) ?p] => set (pA := p) end.
  eassert (FA : focused pA (2, 1, 1) _).
  { unfold pA. repeat eapply focused_on_gca. apply focused_subplot. }
  assert (NA : fig_axes (current_fig pA) !! (2, 1, 2)
               = fig_axes (current_fig (plt st)) !! (2, 1, 2)).
  { unfold pA.
    repeat (erewrite lookup_on_gca_ne;
            [|repeat eapply focused_on_gca; apply focused_subplot|discriminate]).
    now apply lookup_subplot_ne. }
  clearbody pA.
  match goal with |- context [fig_axes (current_fig ?p) !! (2, 1, 1)] =>
    set (pB := p) end.
  eassert (FB : focused pB (2, 1, 2) _).
  { unfold pB. repeat eapply focused_on_gca. apply focused_subplot. }
  assert (NB : fig_axes (current_fig pB) !! (2, 1, 1)
               = fig_axes (current_fig pA) !! (2, 1, 1)).
  { unfold pB.
    repeat (erewrite lookup_on_gca_ne;
            [|repeat eapply focused_on_gca; apply focused_subplot|discriminate]).
    now apply lookup_subplot_ne. }
  clearbody pB.
  destruct FA as [_ FA]. destruct FB as [_ FB]. subst before.
  split; [rewrite NB, FA|split; [rewrite FB, NA|reflexivity]].
  all: unfold set_legend, set_ylabel, set_xlabel, set_title, add_line; simpl.
  all: now rewrite <- app_assoc.
Qed.

(** C3 fails as stated: a history that has all four keys, with one series
    longer than the others, still makes [plot_history] raise. *)
Lemma plot_history_ragged_raises :
  has_keys Reference.ragged_history = true
  /\ is_ok (plot_history Reference.ragged_history Reference.fresh_object) = false
  /\ is_key_error (plot_history Reference.ragged_history Reference.fresh_object)
     = false.
Proof. vm_compute. repeat split. Qed.

(* ===================================================================== *)
(** ** Training *)
(* ===================================================================== *)

Section TrainFacts.

Context `{Runtime}.

Lemma append_length (a b : string) :
  String.length (a +:+ b) = String.length a + String.length b.
Proof.
  induction a as [|ch a IH]; [reflexivity|].
  change (S (String.length (a +:+ b)) = S (String.length a + String.length b)).
  now rewrite IH.
Qed.

(** The four keys of the logs are different names. *)
Lemma log_keys_distinct :
  acc_key <> "loss" /\ acc_key <> "val_loss" /\ val_key <> "loss"
  /\ val_key <> "val_loss" /\ val_key <> acc_key.
Proof.
  destruct acc_key_fresh as [Hl Hv]. split; [exact Hl|]. split; [exact Hv|].
  unfold val_key. split; [|split].
  - change ("val_" +:+ acc_key) with (String "v" ("al_" +:+ acc_key)). discriminate.
  - change ("val_" +:+ acc_key)
      with (String "v" (String "a" (String "l" (String "_" acc_key)))).
    intros [= Heq]. now apply Hl.
  - intros Heq. apply (f_equal String.length) in Heq.
    rewrite append_length in Heq. simpl in Heq. lia.
Qed.

Lemma elem_of_log_keys (k : string) :
  k ∈ log_keys <-> k = "loss" \/ k = acc_key \/ k = "val_loss" \/ k = val_key.
Proof. unfold log_keys. rewrite !elem_of_cons, elem_of_nil. tauto. Qed.

Lemma on_epoch_end_lookup (h : History) (a b c d : R) (k : string) :
  on_epoch_end h [("loss", a); (acc_key, b); ("val_loss", c); (val_key, d)] !! k =
    if decide (k = "loss") then Some (default [] (h !! k) ++ [a])
    else if decide (k = acc_key) then Some (default [] (h !! k) ++ [b])
    else if decide (k = "val_loss") then Some (default [] (h !! k) ++ [c])
    else if decide (k = val_key) then Some (default [] (h !! k) ++ [d])
    else h !! k.
Proof.
  destruct log_keys_distinct as (H1 & H2 & H3 & H4 & H5).
  unfold on_epoch_end, append_log. simpl.
  repeat case_decide; subst;
    repeat first [rewrite lookup_insert_eq
                 | rewrite lookup_insert_ne by congruence];
    reflexivity.
Qed.

Lemma uniform_empty : uniform 0 ∅.
Proof. intros k. rewrite lookup_empty. now left. Qed.

Lemma uniform_epoch (n : nat) (h : History) (a b c d : R) :
  uniform n h ->
  uniform (S n)
    (on_epoch_end h [("loss", a); (acc_key, b); ("val_loss", c); (val_key, d)]).
Proof.
  intros Hu k. rewrite on_epoch_end_lookup. specialize (Hu k).
  assert (Hlen : k ∈ log_keys -> length (default [] (h !! k)) = n).
  { intros Hk. destruct (h !! k) as [v|]; simpl; [tauto|].
    destruct Hu as [->|Hu]; [reflexivity|contradiction]. }
  pose proof (elem_of_log_keys k) as Hkeys.
  repeat case_decide;
    try (rewrite length_app, Hlen by (apply Hkeys; tauto); simpl;
         split; [lia | apply Hkeys; tauto]).
  destruct (h !! k) as [v|].
  - destruct Hu as [_ Hk]. apply Hkeys in Hk. tauto.
  - right. rewrite Hkeys. tauto.
Qed.

Lemma map_imap_shape (g : nat -> Dense -> Dense) (ls : list Dense) :
  (forall i d, units (g i d) = units d /\ activation (g i d) = activation d) ->
  map (fun d => (units d, activation d)) (imap g ls)
  = map (fun d => (units d, activation d)) ls.
Proof.
  revert g. induction ls as [|d ls IH]; intros g Hg; [reflexivity|].
  simpl. destruct (Hg 0 d) as [-> ->]. f_equal.
  apply IH. intros i d'. apply Hg.
Qed.

Lemma topology_set_params p os (net : Network OptState) :
  topology (set_params p os net) = topology net
  /\ input_dim (set_params p os net) = input_dim net
  /\ name (set_params p os net) = name net.
Proof.
  unfold topology, set_params. simpl. split; [|split; reflexivity].
  apply map_imap_shape. intros i d. now split.
Qed.

(** The training loop: [n] more epochs add [n] entries to every series
    and keep the topology and the name of the network. *)
Lemma fit_loop_spec (n : nat) :
  forall (net : Network OptState) (tr dv : mat * mat) (bs : Z) (sd : N)
         (h : History) (m : nat),
    uniform m h ->
    uniform (m + n) (fit_loop n net tr dv bs sd h).2
    /\ topology (fit_loop n net tr dv bs sd h).1.1 = topology net
    /\ input_dim (fit_loop n net tr dv bs sd h).1.1 = input_dim net
    /\ name (fit_loop n net tr dv bs sd h).1.1 = name net.
Proof.
  induction n as [|n IH]; intros net tr dv bs sd h m Hu.
  - simpl. now rewrite Nat.add_0_r.
  - cbn [fit_loop]. destruct (rmsprop_epoch net tr bs sd) as [[p os] [tl ta]].
    destruct (eval_metrics (set_params p os net) dv.1 dv.2) as [vl va].
    specialize (IH (set_params p os net) tr dv bs (next_seed sd)
                  (on_epoch_end h [("loss", tl); (acc_key, ta);
                                   ("val_loss", vl); (val_key, va)])
                  (S m) (uniform_epoch m h tl ta vl va Hu)).
    destruct (topology_set_params p os net) as (Ht & Hi & Hn).
    replace (m + S n) with (S m + n) by lia.
    destruct IH as (IH1 & IH2 & IH3 & IH4).
    split; [exact IH1|]. split; [now rewrite IH2|]. split; [now rewrite IH3|].
    now rewrite IH4.
Qed.

(** [fit] on the arguments the script is written for. *)
Lemma keras_fit_regular (st : State) (l : loc) (tr dv : mat * mat) (bs ep : Z)
    (net : Network OptState) :
  heap st !! l = Some net ->
  regular net tr dv bs = true ->
  keras_fit l tr dv bs ep st =
    let r := fit_loop (Z.to_nat ep) net tr dv bs (seed st) ∅ in
    Ok r.2 (set_seed r.1.2 (set_heap (<[l := r.1.1]> (heap st)) st)).
Proof.
  intros Hnet Hreg. unfold keras_fit. step_method.
  rewrite (deref_ok _ _ _ Hnet), Hreg.
  now destruct (fit_loop (Z.to_nat ep) net tr dv bs (seed st) ∅) as [[net' sd'] h].
Qed.

(** [fit] on any other arguments: the runtime's parameters are installed
    and its error or history is the outcome. *)
Lemma keras_fit_irregular (st : State) (l : loc) (tr dv : mat * mat) (bs ep : Z)
    (net : Network OptState) :
  heap st !! l = Some net ->
  regular net tr dv bs = false ->
  keras_fit l tr dv bs ep st =
    let r := fit_irregular net tr dv bs ep (seed st) in
    let st1 := set_seed r.1.2
                 (set_heap (<[l := set_params r.1.1.1 r.1.1.2 net]> (heap st)) st) in
    match r.2 with
    | inl e => Raise e st1
    | inr h => Ok h st1
    end.
Proof.
  intros Hnet Hreg. unfold keras_fit. step_method.
  rewrite (deref_ok _ _ _ Hnet), Hreg.
  destruct (fit_irregular net tr dv bs ep (seed st)) as [[[p os] sd'] [e|h]];
    reflexivity.
Qed.

Lemma keras_fit_dangling (st : State) (l : loc) (tr dv : mat * mat) (bs ep : Z) :
  heap st !! l = None ->
  keras_fit l tr dv bs ep st = Raise (ReferenceError l) st.
Proof. intros Hnone. unfold keras_fit, bind, deref. now rewrite Hnone. Qed.

(** [train] is [fit], the assignment of its result, the optional [save]
    and the message, in this order; an error of [fit] or of [save] ends
    it where it occurs. *)
Lemma train_eq (st : State) (tr dv : mat * mat) (e b : option Z)
    (s : option bool) :
  train tr dv e b s st =
    match keras_fit (model st) tr dv (default 512%Z b) (default 1%Z e) st with
    | Raise x st1 => Raise x st1
    | Ok h st1 =>
        let st2 := set_train_history (Some h) st1 in
        match (if default true s then save (model st2) (model_dir st2) st2
               else Ok tt st2) with
        | Raise x st3 => Raise x st3
        | Ok _ st3 =>
            Ok (h, model st3)
               (set_io (io st3 ++
                        [Stdout "Model trained successfully and saved in '/model'"])
                       st3)
        end
    end.
Proof.
  destruct tr as [x y], dv as [xv yv]. unfold train.
  unfold bind at 1. unfold gets at 1. unfold bind at 1.
  destruct (keras_fit (model st) (x, y) (xv, yv) (default 512%Z b)
              (default 1%Z e) st) as [h st1|x0 st1]; [|reflexivity].
  unfold bind at 1. unfold modify at 1. unfold bind at 1.
  destruct (default true s).
  - unfold bind at 1. unfold gets at 1. unfold bind at 1. unfold gets at 1.
    destruct (save (model (set_train_history (Some h) st1))
                (model_dir (set_train_history (Some h) st1))
                (set_train_history (Some h) st1)) as [[] st3|x0 st3] eqn:Hsave;
      [|reflexivity].
    assert (Hth : train_history st3 = Some h).
    { change st3 with (res_state (Ok tt st3)). rewrite <- Hsave.
      destruct (heap (set_train_history (Some h) st1)
                  !! model (set_train_history (Some h) st1)) as [n|] eqn:Hn.
      - rewrite (save_eq _ _ _ _ Hn).
        match goal with |- context [if ?c then _ else _] => destruct c end;
          reflexivity.
      - now rewrite (save_dangling _ _ _ Hn). }
    step_method. now rewrite Hth.
  - reflexivity.
Qed.

(** A regular [train] call: one line per outcome. *)
Lemma train_ok (st : State) (tr dv : mat * mat) (e b : option Z)
    (s : option bool) (net : Network OptState) :
  heap st !! model st = Some net ->
  regular net tr dv (default 512%Z b) = true ->
  train tr dv e b s st =
    let r := fit_loop (Z.to_nat (default 1%Z e)) net tr dv (default 512%Z b)
               (seed st) ∅ in
    let path := Path.join (model_dir st) (name r.1.1 +:+ ".h5") in
    let st1 := mkState (model st) (Some r.2) (model_dir st)
                 (<[model st := r.1.1]> (heap st)) (uid st) r.1.2
                 (disk st) (io st) (plt st) (dirs st) in
    if default true s
    then if writable path st
         then Ok (r.2, model st)
                (set_io (io st ++ [Write path;
                           Stdout "Model trained successfully and saved in '/model'"])
                   (set_disk (<[path := stored r.1.1]> (disk st)) st1))
         else Raise (FileNotFoundError path) st1
    else Ok (r.2, model st)
           (set_io (io st ++
                    [Stdout "Model trained successfully and saved in '/model'"])
              st1).
Proof.
  intros Hnet Hreg. rewrite train_eq.
  rewrite (keras_fit_regular st (model st) tr dv _ _ net Hnet Hreg).
  destruct (fit_loop (Z.to_nat (default 1%Z e)) net tr dv (default 512%Z b)
              (seed st) ∅) as [[net' sd'] h]. cbn zeta. cbn [fst snd].
  destruct (default true s); [|reflexivity].
  erewrite save_eq by (simpl; apply lookup_insert_eq).
  change (writable ?p (set_train_history _ (set_seed _ (set_heap _ st))))
    with (writable p st).
  cbn [model_dir set_train_history set_seed set_heap].
  destruct (writable (Path.join (model_dir st) (name net' +:+ ".h5")) st);
    [|reflexivity].
  unfold set_io, set_disk. simpl. now rewrite <- app_assoc.
Qed.

Lemma train_dangling (st : State) (tr dv : mat * mat) (e b : option Z)
    (s : option bool) :
  heap st !! model st = None ->
  train tr dv e b s st = Raise (ReferenceError (model st)) st.
Proof. intros Hnone. rewrite train_eq. now rewrite keras_fit_dangling. Qed.

End TrainFacts.
(** C4.  [train] (epochs 1 and batch size 512 unless given) on two
    non-empty splits of the network's shapes, with a positive batch size
    and an epoch count of at least 1: the training loop updates the held
    network in place and its history has, under each of the four keys of
    the logs (and under no other), exactly as many entries as there were
    epochs.  The call returns the pair of that history and the held
    network when [save_model] is unset or the directory of the artifact
    exists.  When [save_model] is set (the default) and the directory does
    not exist, the call raises [FileNotFoundError] after the training: the
    history is in [train_history], the network is trained, nothing is
    written. *)
Theorem train_returns_history `{Runtime} (st : State) (tr dv : mat * mat)
    (e b : option Z) (s : option bool) (net : Network OptState) :
  heap st !! model st = Some net ->
  regular net tr dv (default 512%Z b) = true ->
  (1 <= default 1 e)%Z ->
  exists h net' st',
    train tr dv e b s st =
      (if default true s
          && negb (writable (Path.join (model_dir st) (name net +:+ ".h5")) st)
       then Raise (FileNotFoundError
                     (Path.join (model_dir st) (name net +:+ ".h5"))) st'
       else Ok (h, model st) st')
    /\ fit_loop (Z.to_nat (default 1%Z e)) net tr dv (default 512%Z b) (seed st) ∅
       = (net', seed st', h)
    /\ (forall k, k ∈ log_keys ->
          exists v, h !! k = Some v /\ length v = Z.to_nat (default 1%Z e))
    /\ (forall k v, h !! k = Some v ->
          length v = Z.to_nat (default 1%Z e) /\ k ∈ log_keys)
    /\ topology net' = topology net
    /\ model st' = model st
    /\ train_history st' = Some h
    /\ heap st' !! model st = Some net'
    /\ (default true s
          && negb (writable (Path.join (model_dir st) (name net +:+ ".h5")) st)
        = true -> disk st' = disk st /\ io st' = io st).
Proof.
  intros Hnet Hreg He.
  pose proof (train_ok st tr dv e b s net Hnet Hreg) as Heq.
  destruct (fit_loop_spec (Z.to_nat (default 1%Z e)) net tr dv (default 512%Z b)
              (seed st) ∅ 0 uniform_empty) as (Hu & Htop & _ & Hname).
  simpl in Heq, Hu.
  destruct (fit_loop (Z.to_nat (default 1%Z e)) net tr dv (default 512%Z b)
              (seed st) ∅) as [[net' sd'] h] eqn:Hfit.
  cbn [fst snd] in *. rewrite Hname in Heq.
  assert (Hall : forall k, k ∈ log_keys ->
            exists v, h !! k = Some v /\ length v = Z.to_nat (default 1%Z e)).
  { intros k Hk. specialize (Hu k). destruct (h !! k) as [v|].
    - exists v. split; [reflexivity|]. tauto.
    - destruct Hu as [Hz|Hnk]; [|contradiction]. lia. }
  assert (Hany : forall k v, h !! k = Some v ->
            length v = Z.to_nat (default 1%Z e) /\ k ∈ log_keys).
  { intros k v Hkv. specialize (Hu k). now rewrite Hkv in Hu. }
  exists h, net'.
  destruct (default true s); cbn [andb];
    [destruct (writable (Path.join (model_dir st) (name net +:+ ".h5")) st);
     cbn [negb]|];
    eexists; (split; [exact Heq|]); (split; [reflexivity|]);
    (split; [exact Hall|]); (split; [exact Hany|]); (split; [exact Htop|]);
    (split; [reflexivity|]); (split; [reflexivity|]);
    (split; [apply lookup_insert_eq|]);
    first [discriminate | intros _; split; reflexivity].
Qed.

(** [train_returns_history] on the sample object of [Reference], with the
    default [save_model]. *)
Lemma train_returns_history_witness :
  heap Reference.fresh_object !! model Reference.fresh_object
    = Some Reference.first_network
  /\ regular Reference.first_network Reference.sample_split
       Reference.sample_split (default 512%Z None) = true
  /\ (1 <= default 1 (Some 2))%Z
  /\ exists h st',
       train Reference.sample_split Reference.sample_split (Some 2%Z) None
             None Reference.fresh_object
         = Ok (h, model Reference.fresh_object) st'
       /\ (forall k, k ∈ @log_keys Reference.runtime ->
            exists v, h !! k = Some v /\ length v = 2).
Proof.
  assert (H1 : heap Reference.fresh_object !! model Reference.fresh_object
               = Some Reference.first_network) by (vm_compute; reflexivity).
  assert (H2 : regular Reference.first_network Reference.sample_split
                 Reference.sample_split (default 512%Z None) = true)
    by (vm_compute; reflexivity).
  assert (H3 : (1 <= default 1 (Some 2))%Z) by (simpl; lia).
  repeat (split; [assumption|]).
  destruct (train_returns_history Reference.fresh_object Reference.sample_split
              Reference.sample_split (Some 2%Z) None None
              Reference.first_network H1 H2 H3)
    as (h & net' & st' & Htrain & _ & Hlen & _).
  exists h, st'. split; [|exact Hlen].
  rewrite Htrain.
  replace (writable (Path.join (model_dir Reference.fresh_object)
                       (name Reference.first_network +:+ ".h5"))
             Reference.fresh_object) with true by (vm_compute; reflexivity).
  reflexivity.
Defined.

(** C4, the refuted reading.  An epoch count of at least 1 and regular
    data do not keep [train] from raising: on a disk without the
    directory [model] next to the script, the default call trains for its
    one epoch, assigns the history and then fails in [save]. *)
Lemma train_missing_directory_raises :
  exists st',
    train Reference.sample_split Reference.sample_split None None None
          Reference.bare_object
      = Raise (FileNotFoundError
                 "/srv/Reuters_multiclass_classification/model/model_1.h5") st'
    /\ is_Some (train_history st').
Proof.
  assert (H1 : heap Reference.bare_object !! model Reference.bare_object
               = Some Reference.first_network) by (vm_compute; reflexivity).
  assert (H2 : regular Reference.first_network Reference.sample_split
                 Reference.sample_split (default 512%Z None) = true)
    by (vm_compute; reflexivity).
  pose proof (train_ok Reference.bare_object Reference.sample_split
                Reference.sample_split None None None Reference.first_network
                H1 H2) as Heq.
  destruct (fit_loop_spec (Z.to_nat (default 1%Z None)) Reference.first_network
              Reference.sample_split Reference.sample_split (default 512%Z None)
              (seed Reference.bare_object) ∅ 0 uniform_empty)
    as (_ & _ & _ & Hname).
  cbv zeta in Heq. rewrite Hname in Heq.
  replace (writable (Path.join (model_dir Reference.bare_object)
                       (name Reference.first_network +:+ ".h5"))
             Reference.bare_object) with false in Heq by (vm_compute; reflexivity).
  cbn [default] in Heq.
  replace (Path.join (model_dir Reference.bare_object)
             (name Reference.first_network +:+ ".h5"))
    with "/srv/Reuters_multiclass_classification/model/model_1.h5" in Heq
    by (vm_compute; reflexivity).
  eexists. split; [exact Heq|]. simpl. eauto.
Qed.

(* ===================================================================== *)
(** ** Evaluation *)
(* ===================================================================== *)

Section EvaluateFacts.

Context `{Runtime}.

Lemma evaluate_eq (st : State) (test : mat * mat) :
  evaluate test st =
    match heap st !! model st with
    | Some net =>
        if well_shaped net test.1 test.2
        then Ok (eval_metrics net test.1 test.2) st
        else if Nat.eqb (length test.1) 0 && Nat.eqb (length test.2) 0
             then Raise (ValueError "not enough values to unpack") st
             else Raise (ValueError "evaluate: bad arguments") st
    | None => Raise (ReferenceError (model st)) st
    end.
Proof.
  destruct test as [x y]. unfold evaluate, keras_evaluate, deref. step_method.
  destruct (heap st !! model st) as [net|]; [|reflexivity].
  destruct (well_shaped net x y); [reflexivity|].
  now destruct (Nat.eqb (length x) 0 && Nat.eqb (length y) 0).
Qed.

Lemma evaluate_state (st : State) (test : mat * mat) :
  res_state (evaluate test st) = st.
Proof.
  rewrite evaluate_eq. destruct (heap st !! model st) as [net|]; [|reflexivity].
  destruct (well_shaped net test.1 test.2); [reflexivity|].
  now destruct (Nat.eqb (length test.1) 0 && Nat.eqb (length test.2) 0).
Qed.




End EvaluateFacts.




(* ===================================================================== *)
(** ** What each method leaves alone *)
(* ===================================================================== *)

Section FrameFacts.

Context `{Runtime}.

Lemma set_plt_id (st : State) : set_plt (plt st) st = st.
Proof. now destruct st. Qed.

Lemma plt_only_ret {A} (a : A) : plt_only (ret a).
Proof. intros p st. now exists p. Qed.

Lemma plt_only_raise {A} (e : Exn) : plt_only (@raise _ A e).
Proof. intros p st. now exists p. Qed.

Lemma plt_only_bind {A B} (c : M A) (k : A -> M B) :
  plt_only c -> (forall a, plt_only (k a)) -> plt_only (bind c k).
Proof.
  intros Hc Hk p st. destruct (Hc p st) as (p1 & Hp1). unfold bind.
  destruct (c (set_plt p st)) as [a st1|e st1]; simpl in Hp1; subst st1.
  - apply Hk.
  - now exists p1.
Qed.

Lemma plt_only_plt_do (f : Pyplot -> Pyplot) : plt_only (plt_do f).
Proof. intros p st. now exists (f p). Qed.

Lemma plt_only_plt_plot (x : list nat) (y : vec) (fmt label : string) :
  plt_only (plt_plot x y fmt label).
Proof.
  unfold plt_plot. destruct (Nat.eqb (length x) (length y));
    [apply plt_only_plt_do | apply plt_only_raise].
Qed.

Lemma plt_only_getitem (h : History) (k : string) : plt_only (getitem h k).
Proof.
  unfold getitem. destruct (h !! k); [apply plt_only_ret | apply plt_only_raise].
Qed.

Lemma plot_history_plt_only (h : History) : plt_only (plot_history h).
Proof.
  unfold plot_history.
  repeat first
    [ apply plt_only_plt_do
    | apply plt_only_bind; [first [apply plt_only_getitem
                                  | apply plt_only_plt_do
                                  | apply plt_only_plt_plot] | intros ?] ].
Qed.

(** [plot_history] changes nothing but the pyplot state. *)
Lemma plot_history_state (h : History) (st : State) :
  exists p, res_state (plot_history h st) = set_plt p st.
Proof.
  destruct (plot_history_plt_only h (plt st) st) as (p & Hp).
  rewrite set_plt_id in Hp. now exists p.
Qed.

Lemma load_state (d n : string) (st : State) :
  res_state (load d n st) =
    let st1 := set_io (io st ++ [Read (Path.join d n)]) st in
    match disk st !! Path.join d n with
    | Some net =>
        set_model (fresh (dom (heap st)))
          (set_heap (<[fresh (dom (heap st)) := net]> (heap st)) st1)
    | None => st1
    end.
Proof. rewrite load_eq. simpl. now destruct (disk st !! Path.join d n). Qed.

Lemma predict_state (x : mat) (nm : option string) (st : State) :
  res_state (predict x nm st) =
    if truthy nm then res_state (load (model_dir st) (default "" nm) st) else st.
Proof.
  destruct (truthy nm) eqn:Hnm.
  - destruct nm as [nm|]; [|discriminate]. simpl in Hnm.
    apply negb_true_iff in Hnm. rewrite (predict_truthy x nm st Hnm). simpl.
    destruct (load (model_dir st) nm st) as [m st1|e st1]; [|reflexivity].
    apply keras_predict_state.
  - rewrite (predict_falsy x nm st Hnm). apply keras_predict_state.
Qed.

Lemma save_state (m : loc) (dir : string) (st : State) :
  res_state (save m dir st) =
    match heap st !! m with
    | Some net =>
        if writable (Path.join dir (name net +:+ ".h5")) st
        then set_disk (<[Path.join dir (name net +:+ ".h5") := stored net]>
                         (disk st))
               (set_io (io st ++ [Write (Path.join dir (name net +:+ ".h5"))]) st)
        else st
    | None => st
    end.
Proof.
  destruct (heap st !! m) as [net|] eqn:Hm.
  - rewrite (save_eq st m dir net Hm).
    now destruct (writable (Path.join dir (name net +:+ ".h5")) st).
  - now rewrite (save_dangling st m dir Hm).
Qed.

(** What [fit] leaves, on any arguments and whether it returns or raises:
    the object it was called on, updated in place by a network of the
    same name and shape, and a new random state. *)
Lemma keras_fit_state (l : loc) (tr dv : mat * mat) (bs ep : Z) (st : State)
    (net : Network OptState) :
  heap st !! l = Some net ->
  exists net' sd',
    input_dim net' = input_dim net
    /\ topology net' = topology net
    /\ name net' = name net
    /\ res_state (keras_fit l tr dv bs ep st)
       = set_seed sd' (set_heap (<[l := net']> (heap st)) st).
Proof.
  intros Hnet. destruct (regular net tr dv bs) eqn:Hreg.
  - rewrite (keras_fit_regular st l tr dv bs ep net Hnet Hreg).
    destruct (fit_loop_spec (Z.to_nat ep) net tr dv bs (seed st) ∅ 0
                uniform_empty) as (_ & Ht & Hi & Hn).
    eexists _, _. split; [exact Hi|]. split; [exact Ht|]. split; [exact Hn|].
    reflexivity.
  - rewrite (keras_fit_irregular st l tr dv bs ep net Hnet Hreg).
    destruct (fit_irregular net tr dv bs ep (seed st)) as [[[p os] sd'] r].
    destruct (topology_set_params p os net) as (Ht & Hi & Hn).
    exists (set_params p os net), sd'.
    split; [exact Hi|]. split; [exact Ht|]. split; [exact Hn|].
    now destruct r.
Qed.

(** What [train] leaves, whether it returns or raises: the held object,
    updated in place by a network of the same name and shape, and on the
    disk at most one new file, the artifact of that network in
    [model_dir]. *)
Lemma train_state (tr dv : mat * mat) (e b : option Z) (s : option bool)
    (st : State) :
  res_state (train tr dv e b s st) = st
  \/ exists net net' sd' th dk t,
       heap st !! model st = Some net
       /\ input_dim net' = input_dim net
       /\ topology net' = topology net
       /\ name net' = name net
       /\ (dk = disk st
           \/ dk = <[Path.join (model_dir st) (name net' +:+ ".h5") := stored net']>
                     (disk st))
       /\ res_state (train tr dv e b s st) =
            mkState (model st) th (model_dir st)
              (<[model st := net']> (heap st)) (uid st) sd' dk t (plt st)
              (dirs st).
Proof.
  destruct (heap st !! model st) as [net|] eqn:Hnet.
  2:{ left. now rewrite (train_dangling st tr dv e b s Hnet). }
  right. rewrite train_eq.
  destruct (keras_fit_state (model st) tr dv (default 512%Z b) (default 1%Z e)
              st net Hnet) as (net' & sd' & Hi & Ht & Hn & Hst).
  exists net, net', sd'.
  destruct (keras_fit (model st) tr dv (default 512%Z b) (default 1%Z e) st)
    as [h st1|x st1]; simpl in Hst; subst st1.
  2:{ eexists _, _, _. repeat (split; [first [eassumption | reflexivity]|]).
      split; [left; reflexivity | reflexivity]. }
  cbv zeta. destruct (default true s).
  2:{ eexists _, _, _. repeat (split; [first [eassumption | reflexivity]|]).
      split; [left; reflexivity | reflexivity]. }
  erewrite save_eq by (simpl; apply lookup_insert_eq).
  match goal with |- context [if ?c then _ else _] => destruct c end.
  - eexists _, _, _. repeat (split; [first [eassumption | reflexivity]|]).
    split; [right; reflexivity | reflexivity].
  - eexists _, _, _. repeat (split; [first [eassumption | reflexivity]|]).
    split; [left; reflexivity | reflexivity].
Qed.

(** No method reassigns [model_dir]. *)
Lemma run_model_dir (c : Call) (st : State) : model_dir (run c st) = model_dir st.
Proof.
  destruct c as [|tr dv e b s|h|t|m d|d n|x nm]; cbn [run].
  - destruct (build_eq st) as (net & -> & _). reflexivity.
  - destruct (train_state tr dv e b s st)
      as [->|(net & net' & sd' & th & dk & t & _ & _ & _ & _ & _ & ->)];
      reflexivity.
  - destruct (plot_history_state h st) as (p & ->). reflexivity.
  - now rewrite evaluate_state.
  - rewrite save_state. destruct (heap st !! m) as [net|]; [|reflexivity].
    now destruct (writable (Path.join d (name net +:+ ".h5")) st).
  - rewrite load_state. simpl. now destruct (disk st !! Path.join d n).
  - rewrite predict_state. destruct (truthy nm); [|reflexivity].
    rewrite load_state. simpl.
    now destruct (disk st !! Path.join (model_dir st) (default "" nm)).
Qed.

(** No method creates or removes a directory. *)
Lemma run_dirs (c : Call) (st : State) : dirs (run c st) = dirs st.
Proof.
  destruct c as [|tr dv e b s|h|t|m d|d n|x nm]; cbn [run].
  - destruct (build_eq st) as (net & -> & _). reflexivity.
  - destruct (train_state tr dv e b s st)
      as [->|(net & net' & sd' & th & dk & t & _ & _ & _ & _ & _ & ->)];
      reflexivity.
  - destruct (plot_history_state h st) as (p & ->). reflexivity.
  - now rewrite evaluate_state.
  - rewrite save_state. destruct (heap st !! m) as [net|]; [|reflexivity].
    now destruct (writable (Path.join d (name net +:+ ".h5")) st).
  - rewrite load_state. simpl. now destruct (disk st !! Path.join d n).
  - rewrite predict_state. destruct (truthy nm); [|reflexivity].
    rewrite load_state. simpl.
    now destruct (disk st !! Path.join (model_dir st) (default "" nm)).
Qed.

(** The held reference stays live. *)
Lemma run_live (c : Call) (st : State) : live st -> live (run c st).
Proof.
  unfold live. intros Hlive.
  destruct c as [|tr dv e b s|h|t|m d|d n|x nm]; cbn [run].
  - destruct (build_eq st) as (net & -> & _). simpl.
    rewrite lookup_insert_eq. eauto.
  - destruct (train_state tr dv e b s st)
      as [->|(net & net' & sd' & th & dk & t & _ & _ & _ & _ & _ & ->)];
      [assumption|]. simpl. rewrite lookup_insert_eq. eauto.
  - destruct (plot_history_state h st) as (p & ->). assumption.
  - now rewrite evaluate_state.
  - rewrite save_state. destruct (heap st !! m) as [net|]; [|assumption].
    now destruct (writable (Path.join d (name net +:+ ".h5")) st).
  - rewrite load_state. simpl. destruct (disk st !! Path.join d n); simpl;
      [rewrite lookup_insert_eq; eauto | assumption].
  - rewrite predict_state. destruct (truthy nm); [|assumption].
    rewrite load_state. simpl.
    destruct (disk st !! Path.join (model_dir st) (default "" nm)); simpl;
      [rewrite lookup_insert_eq; eauto | assumption].
Qed.

Lemma init_state (st0 : State) :
  live (res_state (init st0))
  /\ model_dir (res_state (init st0))
     = Path.join (Path.dirname script_file) "model/".
Proof.
  unfold init, bind at 1. destruct (build_eq st0) as (net & -> & _).
  unfold live. simpl. rewrite lookup_insert_eq. eauto.
Qed.

(** On every constructed object, [model_dir] is the directory [model/]
    next to the script and the held reference is live. *)
Lemma reachable_inv (st : State) :
  reachable st ->
  live st /\ model_dir st = Path.join (Path.dirname script_file) "model/".
Proof.
  induction 1 as [st0|c st Hr [IHl IHd]].
  - apply init_state.
  - split; [now apply run_live|]. now rewrite run_model_dir.
Qed.

End FrameFacts.




(* ===================================================================== *)
(** ** Replacing the held network *)
(* ===================================================================== *)

Section ReplaceFacts.

Context `{Runtime}.

Lemma fresh_ne_live (st : State) : live st -> fresh (dom (heap st)) <> model st.
Proof.
  intros Hlive Heq. pose proof (fresh_not_live st) as Hnone.
  rewrite Heq in Hnone. destruct Hlive as [net Hnet]. congruence.
Qed.

(** A load whose file exists installs a fresh object holding the file's
    network and changes nothing else but the I/O trace. *)
Lemma load_replaces (d n : string) (st : State) (net : Network OptState) :
  disk st !! Path.join d n = Some net ->
  res_state (load d n st) =
    mkState (fresh (dom (heap st))) (train_history st) (model_dir st)
      (<[fresh (dom (heap st)) := net]> (heap st)) (uid st) (seed st) (disk st)
      (io st ++ [Read (Path.join d n)]) (plt st) (dirs st).
Proof. intros Hd. rewrite load_state. simpl. now rewrite Hd. Qed.

Lemma load_missing (d n : string) (st : State) :
  disk st !! Path.join d n = None ->
  res_state (load d n st) = set_io (io st ++ [Read (Path.join d n)]) st.
Proof. intros Hd. rewrite load_state. simpl. now rewrite Hd. Qed.

End ReplaceFacts.

(** C7, as the code has it.  The held reference changes exactly under
    three calls: [build], a [load] whose file exists, and a [predict] with
    a non-empty artifact name whose file exists.  After such a [load] or
    [predict] the held reference is a new object that holds exactly the
    network of the file; the object held before is still on the heap,
    unchanged, and [train_history], [model_dir], the disk, the random
    state and the pyplot state are as before. *)
Theorem held_network_replaced `{Runtime} (c : Call) (st : State) :
  live st ->
  (model (run c st) <> model st <-> replaces c st = true)
  /\ forall path net,
       loads c st = Some path ->
       disk st !! path = Some net ->
       model (run c st) = fresh (dom (heap st))
       /\ heap st !! model (run c st) = None
       /\ heap (run c st) = <[model (run c st) := net]> (heap st)
       /\ heap (run c st) !! model st = heap st !! model st
       /\ train_history (run c st) = train_history st
       /\ model_dir (run c st) = model_dir st
       /\ disk (run c st) = disk st
       /\ seed (run c st) = seed st
       /\ plt (run c st) = plt st.
Proof.
  intros Hlive. pose proof (fresh_ne_live st Hlive) as Hfresh.
  pose proof (fresh_not_live st) as Hnone.
  assert (Hload : forall d n net,
            disk st !! Path.join d n = Some net ->
            let st' := res_state (load d n st) in
            model st' = fresh (dom (heap st))
            /\ heap st !! model st' = None
            /\ heap st' = <[model st' := net]> (heap st)
            /\ heap st' !! model st = heap st !! model st
            /\ train_history st' = train_history st
            /\ model_dir st' = model_dir st
            /\ disk st' = disk st
            /\ seed st' = seed st
            /\ plt st' = plt st).
  { intros d n net Hd st'. subst st'. rewrite (load_replaces d n st net Hd). simpl.
    repeat split; try assumption. now apply lookup_insert_ne. }
  destruct c as [|tr dv e b s|h|t|m d|d n|x nm]; unfold replaces; cbn [run loads].
  - split; [|discriminate]. destruct (build_eq st) as (net & -> & _). simpl. tauto.
  - split; [|discriminate].
    destruct (train_state tr dv e b s st)
      as [->|(net & net' & sd' & th & dk & t & _ & _ & _ & _ & _ & ->)];
      simpl; split; congruence.
  - split; [|discriminate]. destruct (plot_history_state h st) as (p & ->).
    simpl. split; congruence.
  - split; [|discriminate]. rewrite evaluate_state. split; congruence.
  - split; [|discriminate]. rewrite save_state.
    destruct (heap st !! m) as [net|]; [|simpl; split; congruence].
    destruct (writable (Path.join d (name net +:+ ".h5")) st);
      simpl; split; congruence.
  - split.
    + destruct (disk st !! Path.join d n) as [net|] eqn:Hd.
      * rewrite (load_replaces d n st net Hd). simpl.
        try rewrite bool_decide_eq_true_2 by eauto. tauto.
      * rewrite (load_missing d n st Hd). simpl.
        try rewrite bool_decide_eq_false_2 by (intros [? ?]; discriminate).
        split; congruence.
    + intros path net [= <-] Hd. now apply Hload.
  - rewrite predict_state. destruct (truthy nm) eqn:Hnm.
    2:{ split; [split; congruence | discriminate]. }
    split.
    + destruct (disk st !! Path.join (model_dir st) (default "" nm))
        as [net|] eqn:Hd.
      * rewrite (load_replaces _ _ st net Hd). simpl.
        try rewrite bool_decide_eq_true_2 by eauto. tauto.
      * rewrite (load_missing _ _ st Hd). simpl.
        try rewrite bool_decide_eq_false_2 by (intros [? ?]; discriminate).
        split; congruence.
    + intros path net [= <-] Hd. now apply Hload.
Qed.

(** [held_network_replaced] on the sample object of [Reference]. *)
Lemma held_network_replaced_witness :
  live Reference.saved_object
  /\ loads (CLoad "out" "model_1.h5") Reference.saved_object
     = Some "out/model_1.h5"
  /\ disk Reference.saved_object !! "out/model_1.h5"
     = Some (stored Reference.first_network)
  /\ model (run (CLoad "out" "model_1.h5") Reference.saved_object)
     <> model Reference.saved_object
  /\ heap (run (CLoad "out" "model_1.h5") Reference.saved_object)
     = <[model (run (CLoad "out" "model_1.h5") Reference.saved_object)
           := stored Reference.first_network]> (heap Reference.saved_object)
  /\ train_history (run (CLoad "out" "model_1.h5") Reference.saved_object)
     = train_history Reference.saved_object.
Proof.
  assert (Hlive : live Reference.saved_object).
  { apply run_live. apply reachable_inv, reach_init. }
  assert (Hloads : loads (CLoad "out" "model_1.h5") Reference.saved_object
                   = Some "out/model_1.h5") by (vm_compute; reflexivity).
  assert (Hdisk : disk Reference.saved_object !! "out/model_1.h5"
                  = Some (stored Reference.first_network))
    by (vm_compute; reflexivity).
  destruct (held_network_replaced (CLoad "out" "model_1.h5")
              Reference.saved_object Hlive) as [Hiff Hnew].
  destruct (Hnew _ _ Hloads Hdisk) as (_ & _ & Hheap & _ & Hth & _).
  repeat (split; [assumption|]).
  split; [|split; assumption].
  apply Hiff. vm_compute. reflexivity.
Defined.

(** C7 fails as stated: [build], which is neither a [load] nor a [predict]
    with an artifact name, replaces the held network too. *)
Lemma build_replaces_held_network :
  loads CBuild Reference.fresh_object = None
  /\ model (run CBuild Reference.fresh_object) <> model Reference.fresh_object
  /\ is_ok (build Reference.fresh_object) = true.
Proof. vm_compute. repeat split. discriminate. Qed.

(* ===================================================================== *)
(** ** Repeated prediction *)
(* ===================================================================== *)

Section PredictFacts.

Context `{Runtime}.

(** [predict] updates no network: every object of the heap keeps its
    content; the disk, the model directory and the random state stay. *)
Lemma predict_frame (x : mat) (nm : option string) (st : State) :
  let st' := res_state (predict x nm st) in
  (forall l net, heap st !! l = Some net -> heap st' !! l = Some net)
  /\ disk st' = disk st
  /\ model_dir st' = model_dir st
  /\ seed st' = seed st
  /\ (truthy nm = false -> st' = st).
Proof.
  cbv zeta. rewrite predict_state. destruct (truthy nm); [|now repeat split].
  rewrite load_state. simpl.
  destruct (disk st !! Path.join (model_dir st) (default "" nm)) as [net|]; simpl.
  - repeat split; try discriminate. intros l net' Hl.
    rewrite lookup_insert_ne; [exact Hl|]. intros <-.
    rewrite fresh_not_live in Hl. discriminate.
  - repeat split; try discriminate. auto.
Qed.

(** What [predict] returns depends on its source only. *)
Lemma predict_value (x : mat) (nm : option string) (st st' : State) (out : mat) :
  same_source nm st st' ->
  res_value (predict x nm st) = inr out ->
  res_value (predict x nm st') = inr out.
Proof.
  intros (Hdisk & Hdir & Hheld). destruct (truthy nm) eqn:Hnm.
  - destruct nm as [nm|]; [|discriminate]. simpl in Hnm.
    apply negb_true_iff in Hnm. rewrite !(predict_truthy x nm _ Hnm).
    rewrite !load_eq. simpl. rewrite Hdisk, Hdir.
    destruct (disk st !! Path.join (model_dir st) nm) as [net|]; [|trivial].
    unfold keras_predict, bind, deref. simpl. rewrite !lookup_insert_eq.
    destruct (has_width (input_dim net) x); trivial.
  - rewrite !(predict_falsy x nm _ Hnm).
    unfold keras_predict, bind, deref. rewrite (Hheld eq_refl).
    destruct (heap st !! model st) as [net|]; [|discriminate].
    destruct (has_width (input_dim net) x); trivial.
Qed.

Lemma same_source_refl (nm : option string) (st : State) : same_source nm st st.
Proof. now repeat split. Qed.

Lemma same_source_predict (x : mat) (nm : option string) (st st' : State) :
  same_source nm st st' ->
  same_source nm st (res_state (predict x nm st')).
Proof.
  intros (Hdisk & Hdir & Hheld).
  destruct (predict_frame x nm st') as (_ & Hd & Hm & _ & Hsame).
  split; [congruence|]. split; [congruence|].
  intros Hnm. rewrite (Hsame Hnm). now apply Hheld.
Qed.

(** Any number of further predictions gives the first answer again. *)
Lemma predict_many_stable (x : mat) (nm : option string) (st : State) (out : mat)
    (n : nat) :
  res_value (predict x nm st) = inr out ->
  forall st',
    same_source nm st st' ->
    exists st2,
      predict_many n x nm st' = Ok (replicate n out) st2
      /\ (forall l net, heap st' !! l = Some net -> heap st2 !! l = Some net)
      /\ disk st2 = disk st'
      /\ seed st2 = seed st'.
Proof.
  intros Hout. induction n as [|n IH]; intros st' Hsrc.
  - exists st'. now repeat split.
  - cbn [predict_many]. unfold bind at 1.
    pose proof (predict_value x nm st st' out Hsrc Hout) as Hval.
    pose proof (predict_frame x nm st') as (Hheap & Hdisk & _ & Hseed & _).
    pose proof (same_source_predict x nm st st' Hsrc) as Hsrc1.
    destruct (predict x nm st') as [o st1|ex st1]; [|discriminate].
    simpl in Hval, Hheap, Hdisk, Hseed, Hsrc1. injection Hval as ->.
    destruct (IH st1 Hsrc1) as (st2 & Hmany & Hheap2 & Hdisk2 & Hseed2).
    exists st2. unfold bind, ret. rewrite Hmany. simpl.
    split; [reflexivity|]. split; [auto|]. split; congruence.
Qed.

End PredictFacts.

(** C8.  [predict] is a function of the state it reads and changes no
    parameter: a call that returned [out] has left every network object,
    the disk and the random state as they were, and any number of further
    calls with the same input and the same [load_model_name] return [out]
    again, still without touching a network, the disk or the random
    state. *)
Theorem predict_repeatable `{Runtime} (n : nat) (x : mat) (nm : option string)
    (st st1 : State) (out : mat) :
  predict x nm st = Ok out st1 ->
  (forall l net, heap st !! l = Some net -> heap st1 !! l = Some net)
  /\ disk st1 = disk st
  /\ seed st1 = seed st
  /\ exists st2,
       predict_many n x nm st1 = Ok (replicate n out) st2
       /\ (forall l net, heap st !! l = Some net -> heap st2 !! l = Some net)
       /\ disk st2 = disk st
       /\ seed st2 = seed st.
Proof.
  intros Hp.
  pose proof (predict_frame x nm st) as (Hheap & Hdisk & _ & Hseed & _).
  pose proof (same_source_predict x nm st st (same_source_refl nm st)) as Hsrc.
  rewrite Hp in Hheap, Hdisk, Hseed, Hsrc. simpl in Hheap, Hdisk, Hseed, Hsrc.
  assert (Hout : res_value (predict x nm st) = inr out) by now rewrite Hp.
  destruct (predict_many_stable x nm st out n Hout st1 Hsrc)
    as (st2 & Hmany & Hheap2 & Hdisk2 & Hseed2).
  repeat (split; [assumption|]).
  exists st2. split; [exact Hmany|]. split; [auto|]. split; congruence.
Qed.

(** [predict_repeatable] on the sample object of [Reference]. *)
Lemma predict_repeatable_witness :
  predict Reference.sample_data None Reference.fresh_object
    = Ok (map (forward Reference.first_network) Reference.sample_data)
         Reference.fresh_object
  /\ exists st2,
       predict_many 3 Reference.sample_data None Reference.fresh_object
         = Ok (replicate 3 (map (forward Reference.first_network)
                                Reference.sample_data)) st2
       /\ disk st2 = disk Reference.fresh_object.
Proof.
  assert (Hp : predict Reference.sample_data None Reference.fresh_object
               = Ok (map (forward Reference.first_network) Reference.sample_data)
                    Reference.fresh_object).
  { apply predict_held; vm_compute; reflexivity. }
  split; [exact Hp|].
  destruct (predict_repeatable 3 Reference.sample_data None
              Reference.fresh_object Reference.fresh_object _ Hp)
    as (_ & _ & _ & st2 & Hmany & _ & Hdisk & _).
  exists st2. split; assumption.
Defined.


(* ===================================================================== *)
(** * Further properties of the class *)
(* ===================================================================== *)

(* ===================================================================== *)
(** ** More on paths: where the artifacts live *)
(* ===================================================================== *)

Lemma append_empty_r (a : string) : a +:+ "" = a.
Proof.
  induction a as [|c a IH]; [reflexivity|].
  change (String c (a +:+ "") = String c a). now rewrite IH.
Qed.

Lemma contains_sep_app (a b : string) :
  Path.contains_sep (a +:+ b) = Path.contains_sep a || Path.contains_sep b.
Proof.
  induction a as [|c a IH]; [reflexivity|].
  change (Path.is_sep c || Path.contains_sep (a +:+ b)
          = Path.is_sep c || Path.contains_sep a || Path.contains_sep b).
  rewrite IH. now rewrite orb_assoc.
Qed.

Lemma head_part_no_sep (f : string) :
  Path.contains_sep f = false -> Path.head_part f = "".
Proof. destruct f as [|c f]; [reflexivity|]. intros Hf. simpl in *. now rewrite Hf. Qed.

(** Up to the last separator: a file name without separator is cut off. *)
Lemma head_part_file (d f : string) :
  Path.contains_sep f = false ->
  Path.head_part (d +:+ "/" +:+ f) = d +:+ "/".
Proof.
  intros Hf. induction d as [|c d IH].
  - change (Path.head_part (String "/" f) = "/").
    cbn [Path.head_part Path.contains_sep]. simpl Path.is_sep.
    cbn [orb]. now rewrite (head_part_no_sep f Hf).
  - change (Path.head_part (String c (d +:+ "/" +:+ f)) = String c (d +:+ "/")).
    cbn [Path.head_part]. cbn [Path.contains_sep].
    rewrite contains_sep_app.
    change (Path.contains_sep ("/" +:+ f)) with (true || Path.contains_sep f).
    cbn [orb]. rewrite !orb_true_r. now rewrite IH.
Qed.

Lemma ends_with_sep_app (a b : string) :
  b <> "" -> Path.ends_with_sep (a +:+ b) = Path.ends_with_sep b.
Proof.
  intros Hb. induction a as [|c a IH]; [reflexivity|].
  change (Path.ends_with_sep (String c (a +:+ b)) = Path.ends_with_sep b).
  destruct (a +:+ b) as [|c' r] eqn:Hab.
  - destruct a; [simpl in Hab; contradiction | discriminate].
  - cbn [Path.ends_with_sep]. exact IH.
Qed.

Lemma all_sep_ends (s : string) :
  Path.all_sep s = true -> s <> "" -> Path.ends_with_sep s = true.
Proof.
  induction s as [|c s IH]; [contradiction|]. intros Hall _.
  cbn [Path.all_sep] in Hall. apply andb_true_iff in Hall. destruct Hall as [Hc Hs].
  destruct s as [|c' s']; [exact Hc|]. cbn [Path.ends_with_sep].
  apply IH; [exact Hs | discriminate].
Qed.

Lemma all_sep_app_l (a b : string) :
  Path.all_sep (a +:+ b) = true -> Path.all_sep a = true.
Proof.
  induction a as [|c a IH]; [reflexivity|].
  change (Path.is_sep c && Path.all_sep (a +:+ b) = true ->
          Path.is_sep c && Path.all_sep a = true).
  intros Hall. apply andb_true_iff in Hall. destruct Hall as [-> Hall].
  now rewrite IH.
Qed.

Lemma rstrip_sep_dir (d : string) :
  d <> "" -> Path.ends_with_sep d = false -> Path.rstrip_sep (d +:+ "/") = d.
Proof.
  induction d as [|c d IH]; [contradiction|]. intros _ Hend.
  change (Path.rstrip_sep (String c (d +:+ "/")) = String c d).
  cbn [Path.rstrip_sep]. destruct d as [|c' d'].
  - cbn [Path.ends_with_sep] in Hend. rewrite Hend. reflexivity.
  - cbn [Path.ends_with_sep] in Hend.
    rewrite IH; [|discriminate|exact Hend]. cbn [Path.is_empty].
    now rewrite andb_false_r.
Qed.

(** [os.path.dirname] of a file in a directory is the directory. *)
Lemma dirname_file (d f : string) :
  d <> "" -> Path.ends_with_sep d = false -> Path.contains_sep f = false ->
  Path.dirname (d +:+ "/" +:+ f) = d.
Proof.
  intros Hd Hend Hf. unfold Path.dirname. rewrite (head_part_file d f Hf).
  assert (Hne : Path.is_empty (d +:+ "/") = false).
  { destruct d; [contradiction|reflexivity]. }
  assert (Hall : Path.all_sep (d +:+ "/") = false).
  { destruct (Path.all_sep (d +:+ "/")) eqn:Hall; [|reflexivity].
    apply all_sep_app_l in Hall. rewrite (all_sep_ends d Hall Hd) in Hend.
    discriminate. }
  rewrite Hne, Hall. cbn [negb andb]. now apply rstrip_sep_dir.
Qed.

Lemma join_model_ends_with_sep (a : string) :
  Path.ends_with_sep (Path.join a "model/") = true.
Proof.
  rewrite join_cases. cbn [Path.starts_with_sep]. simpl Path.is_sep. cbv iota.
  rewrite !ends_with_sep_app by (try destruct (_ || _); discriminate).
  reflexivity.
Qed.

Lemma starts_with_sep_h5 (n : string) :
  Path.starts_with_sep (n +:+ ".h5") = Path.starts_with_sep n.
Proof. now destruct n. Qed.

Lemma is_empty_h5 (n : string) : Path.is_empty (n +:+ ".h5") = false.
Proof. now destruct n. Qed.

(** X1.  When the script is the file [f] of a directory [d] (a path
    [d/f], [d] not empty and without trailing separator), a new object has
    [model_dir = d/model/] and no training history, and constructing it
    has touched neither the disk nor the I/O trace. *)
Theorem init_model_dir `{Runtime} (st0 : State) (d f : string) :
  script_file = d +:+ "/" +:+ f ->
  d <> "" ->
  Path.ends_with_sep d = false ->
  Path.contains_sep f = false ->
  model_dir (res_state (init st0)) = d +:+ "/model/"
  /\ train_history (res_state (init st0)) = None
  /\ disk (res_state (init st0)) = disk st0
  /\ io (res_state (init st0)) = io st0.
Proof.
  intros Hfile Hd Hend Hf. destruct (init_state st0) as [_ Hdir].
  split.
  - rewrite Hdir, Hfile, (dirname_file d f Hd Hend Hf), join_cases.
    cbn [Path.starts_with_sep]. simpl Path.is_sep. cbv iota.
    rewrite Hend. destruct d; [contradiction|reflexivity].
  - unfold init, bind at 1. destruct (build_eq st0) as (net & -> & _).
    repeat split.
Qed.

(** [init_model_dir] for the script of [Reference]. *)
Lemma init_model_dir_witness :
  @script_file Reference.runtime
    = "/srv/Reuters_multiclass_classification" +:+ "/" +:+ "model.py"
  /\ "/srv/Reuters_multiclass_classification" <> ""
  /\ Path.ends_with_sep "/srv/Reuters_multiclass_classification" = false
  /\ Path.contains_sep "model.py" = false
  /\ model_dir (res_state (init Reference.blank))
     = "/srv/Reuters_multiclass_classification" +:+ "/model/".
Proof.
  assert (H1 : @script_file Reference.runtime
               = "/srv/Reuters_multiclass_classification" +:+ "/" +:+ "model.py")
    by reflexivity.
  assert (H2 : "/srv/Reuters_multiclass_classification" <> "") by discriminate.
  assert (H3 : Path.ends_with_sep "/srv/Reuters_multiclass_classification" = false)
    by reflexivity.
  assert (H4 : Path.contains_sep "model.py" = false) by reflexivity.
  repeat (split; [assumption|]).
  apply (init_model_dir Reference.blank _ _ H1 H2 H3 H4).
Defined.

(** X2.  On a constructed object [model_dir] ends in a separator, so the
    artifact of the held network has the path that is [model_dir] directly
    followed by the network's name and [.h5] (no separator is added), as
    long as the name does not start with a separator.  Saving the held
    network into [model_dir] writes that file when its directory exists
    and raises [FileNotFoundError] for that path when it does not. *)
Theorem artifact_in_model_dir `{Runtime} (st : State) (net : Network OptState) :
  reachable st ->
  heap st !! model st = Some net ->
  Path.starts_with_sep (name net) = false ->
  let path := model_dir st +:+ name net +:+ ".h5" in
  Path.ends_with_sep (model_dir st) = true
  /\ Path.join (model_dir st) (name net +:+ ".h5") = path
  /\ save (model st) (model_dir st) st =
       (if writable path st
        then Ok tt (set_disk (<[path := stored net]> (disk st))
                      (set_io (io st ++ [Write path]) st))
        else Raise (FileNotFoundError path) st).
Proof.
  intros Hr Hnet Hname path. destruct (reachable_inv st Hr) as [_ Hdir].
  assert (Hend : Path.ends_with_sep (model_dir st) = true).
  { rewrite Hdir. apply join_model_ends_with_sep. }
  assert (Hpath : Path.join (model_dir st) (name net +:+ ".h5") = path).
  { rewrite join_cases, starts_with_sep_h5, Hname, Hend, orb_true_r.
    reflexivity. }
  split; [exact Hend|]. split; [exact Hpath|].
  now rewrite (save_eq st (model st) (model_dir st) net Hnet), Hpath.
Qed.

(** [artifact_in_model_dir] on the sample object, whose disk has the
    directory [model] next to the script. *)
Lemma artifact_in_model_dir_witness :
  reachable Reference.fresh_object
  /\ heap Reference.fresh_object !! model Reference.fresh_object
     = Some Reference.first_network
  /\ Path.starts_with_sep (name Reference.first_network) = false
  /\ save (model Reference.fresh_object) (model_dir Reference.fresh_object)
          Reference.fresh_object =
       Ok tt (set_disk (<["/srv/Reuters_multiclass_classification/model/model_1.h5"
                          := stored Reference.first_network]> ∅)
                (set_io [Write "/srv/Reuters_multiclass_classification/model/model_1.h5"]
                        Reference.fresh_object)).
Proof.
  assert (H1 : reachable Reference.fresh_object) by apply reach_init.
  assert (H2 : heap Reference.fresh_object !! model Reference.fresh_object
               = Some Reference.first_network) by (vm_compute; reflexivity).
  assert (H3 : Path.starts_with_sep (name Reference.first_network) = false)
    by reflexivity.
  repeat (split; [assumption|]).
  destruct (artifact_in_model_dir Reference.fresh_object Reference.first_network
              H1 H2 H3) as (_ & _ & Hsave).
  rewrite Hsave. vm_compute. reflexivity.
Defined.

(** X3.  An artifact name that starts with a separator is taken as it is:
    [load] and [predict] then read that path, whatever the directory and
    [model_dir] are, and an artifact found there becomes the held
    network. *)
Theorem absolute_name_ignores_directory `{Runtime} (x : mat) (nm : string)
    (st : State) :
  Path.starts_with_sep nm = true ->
  (forall d, io (res_state (load d nm st)) = io st ++ [Read nm])
  /\ io (res_state (predict x (Some nm) st)) = io st ++ [Read nm]
  /\ forall net,
       disk st !! nm = Some net ->
       heap (res_state (predict x (Some nm) st))
         !! model (res_state (predict x (Some nm) st)) = Some net.
Proof.
  intros Habs.
  assert (Hjoin : forall d, Path.join d nm = nm).
  { intros d. unfold Path.join. now rewrite Habs. }
  assert (Htruthy : truthy (Some nm) = true).
  { destruct nm; [discriminate|reflexivity]. }
  split; [|split].
  - intros d. rewrite load_state, Hjoin. simpl.
    now destruct (disk st !! nm).
  - rewrite predict_state, Htruthy, load_state. simpl. rewrite Hjoin.
    now destruct (disk st !! nm).
  - intros net Hnet. rewrite predict_state, Htruthy, load_state. simpl.
    rewrite Hjoin, Hnet. simpl. apply lookup_insert_eq.
Qed.

(** [absolute_name_ignores_directory] for an artifact under [/tmp]. *)
Lemma absolute_name_ignores_directory_witness :
  Path.starts_with_sep "/tmp/m.h5" = true
  /\ io (res_state (predict Reference.sample_data (Some "/tmp/m.h5")
                      Reference.fresh_object))
     = io Reference.fresh_object ++ [Read "/tmp/m.h5"].
Proof.
  split; [reflexivity|].
  apply (absolute_name_ignores_directory Reference.sample_data "/tmp/m.h5"
           Reference.fresh_object).
  reflexivity.
Defined.

(** X4.  [load] of a path that holds no artifact raises the framework's
    error for that path; the object still holds the network it held, and
    heap and disk are as before (the read attempt is all that happened). *)
Theorem load_missing_file `{Runtime} (d n : string) (st : State) :
  disk st !! Path.join d n = None ->
  load d n st =
    Raise (OSError (Path.join d n)) (set_io (io st ++ [Read (Path.join d n)]) st)
  /\ model (res_state (load d n st)) = model st
  /\ heap (res_state (load d n st)) = heap st
  /\ disk (res_state (load d n st)) = disk st.
Proof.
  intros Hd. rewrite load_eq. simpl. rewrite Hd. repeat split.
Qed.

(** [load_missing_file] on the sample object, whose disk is empty. *)
Lemma load_missing_file_witness :
  disk Reference.fresh_object !! Path.join "out" "model_1.h5" = None
  /\ model (res_state (load "out" "model_1.h5" Reference.fresh_object))
     = model Reference.fresh_object.
Proof.
  split; [vm_compute; reflexivity|].
  apply (load_missing_file "out" "model_1.h5" Reference.fresh_object).
  vm_compute; reflexivity.
Defined.

(** X5.  [predict] with a non-empty artifact name loads before it looks at
    the input.  With no file at [os.path.join(model_dir, name)] it raises
    and the held network stays; with a file there the loaded network is
    held from then on, also when the prediction itself then fails because
    the input rows do not have the network's input width. *)
Theorem predict_named_outcome `{Runtime} (x : mat) (nm : string) (st : State) :
  Path.is_empty nm = false ->
  let path := Path.join (model_dir st) nm in
  let st1 := set_io (io st ++ [Read path]) st in
  match disk st !! path with
  | None => predict x (Some nm) st = Raise (OSError path) st1
  | Some net =>
      let m := fresh (dom (heap st)) in
      let st2 := set_model m (set_heap (<[m := net]> (heap st)) st1) in
      predict x (Some nm) st =
        (if has_width (input_dim net) x
         then Ok (map (forward net) x) st2
         else Raise (ValueError "predict: bad input shape") st2)
      /\ heap st !! m = None
      /\ (live st -> m <> model st)
  end.
Proof.
  intros Hnm path st1. subst path st1.
  rewrite (predict_truthy x nm st Hnm), load_eq. simpl.
  destruct (disk st !! Path.join (model_dir st) nm) as [net|]; [|reflexivity].
  split; [|split; [apply fresh_not_live | apply fresh_ne_live]].
  unfold keras_predict, bind, deref. simpl. rewrite lookup_insert_eq.
  destruct (has_width (input_dim net) x); reflexivity.
Qed.

(** [predict_named_outcome]: an input of the wrong width on the saved
    sample object. *)
Lemma predict_named_outcome_witness :
  Path.is_empty "model_1.h5" = false
  /\ is_ok (predict [[1%R]] (Some "model_1.h5")
              (set_model_dir "out" Reference.saved_object)) = false
  /\ model (res_state (predict [[1%R]] (Some "model_1.h5")
                         (set_model_dir "out" Reference.saved_object)))
     <> model Reference.saved_object.
Proof.
  split; [reflexivity|].
  pose proof (predict_named_outcome [[1%R]] "model_1.h5"
                (set_model_dir "out" Reference.saved_object) eq_refl) as Hp.
  cbv zeta in Hp.
  assert (Hd : disk (set_model_dir "out" Reference.saved_object)
                 !! Path.join (model_dir (set_model_dir "out" Reference.saved_object))
                              "model_1.h5"
               = Some (stored Reference.first_network))
    by (vm_compute; reflexivity).
  rewrite Hd in Hp. destruct Hp as (Hp & _ & Hne).
  assert (Hw : has_width (input_dim (stored Reference.first_network)) [[1%R]]
               = false)
    by (vm_compute; reflexivity).
  rewrite Hw in Hp. rewrite Hp. split; [reflexivity|]. simpl.
  apply Hne. eexists. vm_compute. reflexivity.
Defined.

(* ===================================================================== *)
(** ** Shapes and architecture across calls *)
(* ===================================================================== *)

Section ShapeFacts.

Context `{Runtime}.

Lemma output_dim_topology (net : Network OptState) :
  output_dim net = foldl (fun _ p => p.1) (input_dim net) (topology net).
Proof.
  unfold output_dim, topology. generalize (input_dim net).
  induction (layers net) as [|d ls IH]; intros n; [reflexivity|].
  simpl. apply IH.
Qed.

Lemma well_shaped_same_shape (net net' : Network OptState) (x y : mat) :
  input_dim net' = input_dim net -> topology net' = topology net ->
  well_shaped net' x y = well_shaped net x y.
Proof.
  intros Hi Ht. unfold well_shaped.
  now rewrite (output_dim_topology net'), (output_dim_topology net), Hi, Ht.
Qed.

Lemma regular_same_shape (net net' : Network OptState) (tr dv : mat * mat)
    (bs : Z) :
  input_dim net' = input_dim net -> topology net' = topology net ->
  regular net' tr dv bs = regular net tr dv bs.
Proof.
  intros Hi Ht. unfold regular.
  now rewrite !(well_shaped_same_shape net net' _ _ Hi Ht).
Qed.

Lemma classifier_stored (net : Network OptState) :
  classifier net -> classifier (stored net).
Proof. intros [Hi Ht]. split; [exact Hi|]. now rewrite stored_topology. Qed.

(** The forward pass maps a row of the input width to one of the output
    width. *)
Lemma forward_length (net : Network OptState) (x : vec) :
  length x = input_dim net -> length (forward net x) = output_dim net.
Proof.
  intros Hx. destruct (decide (layers net = [])) as [Hnil|Hne].
  - unfold forward, output_dim. now rewrite Hnil.
  - destruct (exists_last Hne) as (ls & d & Hl).
    rewrite (forward_snoc net ls d x Hl), (output_dim_snoc net ls d Hl).
    apply dense_apply_length.
Qed.

Lemma classifier_forward (net : Network OptState) (x : vec) :
  classifier net -> distribution 46 (forward net x).
Proof.
  intros [_ Htop].
  destruct (topology_softmax_last net [(64, relu); (64, relu)] 46 Htop)
    as (ls & d & Hl & Ha & Hu).
  destruct (forward_softmax net ls d x Hl Ha) as (Hlen & Hrange & Hsum).
  split; [now rewrite Hlen|]. split.
  - eapply Forall_impl; [exact Hrange|]. simpl. intros q Hq. lra.
  - apply Hsum. now rewrite Hu.
Qed.

Lemma all_classifiers_insert_heap (st : State) (l : loc) (net : Network OptState) :
  all_classifiers st -> classifier net ->
  forall l' net', <[l := net]> (heap st) !! l' = Some net' -> classifier net'.
Proof.
  intros [Hh _] Hc l' net'. rewrite lookup_insert. case_decide.
  - now intros [= <-].
  - apply Hh.
Qed.

Lemma all_classifiers_insert_disk (st : State) (p : string)
    (net : Network OptState) :
  all_classifiers st -> classifier net ->
  forall p' net', <[p := net]> (disk st) !! p' = Some net' -> classifier net'.
Proof.
  intros [_ Hd] Hc p' net'. rewrite lookup_insert. case_decide.
  - now intros [= <-].
  - apply Hd.
Qed.

Lemma load_keeps_classifiers (d n : string) (st : State) :
  all_classifiers st -> all_classifiers (res_state (load d n st)).
Proof.
  intros Hall. rewrite load_state. simpl.
  destruct (disk st !! Path.join d n) as [net|] eqn:Hd; [|exact Hall].
  split; simpl; [|apply Hall].
  apply (all_classifiers_insert_heap st _ net Hall).
  destruct Hall as [_ Hdisk]. now apply (Hdisk _ _ Hd).
Qed.

(** No call brings a network of another architecture to the heap or to
    the disk. *)
Lemma run_keeps_classifiers (c : Call) (st : State) :
  all_classifiers st -> all_classifiers (run c st).
Proof.
  intros Hall. destruct c as [|tr dv e b s|h|t|m d|d n|x nm]; cbn [run].
  - destruct (build_eq st) as (net & -> & _ & Hi & Ht & _).
    split; simpl; [|apply Hall].
    apply (all_classifiers_insert_heap st _ net Hall). now split.
  - destruct (train_state tr dv e b s st)
      as [->|(net & net' & sd' & th & dk & t & Hnet & Hi & Ht & _ & Hdk & ->)];
      [exact Hall|].
    assert (Hc : classifier net').
    { destruct Hall as [Hh _]. destruct (Hh _ _ Hnet) as [Hi0 Ht0].
      split; congruence. }
    split; simpl.
    + now apply (all_classifiers_insert_heap st _ net' Hall).
    + destruct Hdk as [->| ->]; [apply Hall|].
      apply (all_classifiers_insert_disk st _ (stored net') Hall).
      now apply classifier_stored.
  - destruct (plot_history_state h st) as (p & ->). exact Hall.
  - now rewrite evaluate_state.
  - rewrite save_state. destruct (heap st !! m) as [net|] eqn:Hm; [|exact Hall].
    destruct (writable (Path.join d (name net +:+ ".h5")) st); [|exact Hall].
    split; simpl; [apply Hall|].
    apply (all_classifiers_insert_disk st _ (stored net) Hall).
    apply classifier_stored. destruct Hall as [Hh _]. now apply (Hh _ _ Hm).
  - now apply load_keeps_classifiers.
  - rewrite predict_state. destruct (truthy nm); [|exact Hall].
    now apply load_keeps_classifiers.
Qed.

Lemma init_keeps_classifiers (st0 : State) :
  all_classifiers st0 -> all_classifiers (res_state (init st0)).
Proof.
  intros Hall. unfold init, bind at 1.
  destruct (build_eq st0) as (net & -> & _ & Hi & Ht & _).
  split; simpl; [|apply Hall].
  apply (all_classifiers_insert_heap st0 _ net Hall). now split.
Qed.

Lemma run_all_keeps_classifiers (calls : list Call) (st : State) :
  all_classifiers st -> all_classifiers (run_all calls st).
Proof.
  revert st. induction calls as [|c calls IH]; intros st Hall; [exact Hall|].
  apply (IH (run c st)). now apply run_keeps_classifiers.
Qed.

Lemma run_all_live (calls : list Call) (st : State) :
  live st -> live (run_all calls st).
Proof.
  revert st. induction calls as [|c calls IH]; intros st Hl; [exact Hl|].
  apply (IH (run c st)). now apply run_live.
Qed.

Lemma predict_returns (x : mat) (nm : option string) (st st' : State) (out : mat) :
  predict x nm st = Ok out st' ->
  exists net,
    heap st' !! model st' = Some net
    /\ has_width (input_dim net) x = true
    /\ out = map (forward net) x.
Proof.
  destruct (truthy nm) eqn:Hnm.
  - destruct nm as [nm|]; [|discriminate]. simpl in Hnm.
    apply negb_true_iff in Hnm. rewrite (predict_truthy x nm st Hnm), load_eq.
    simpl. destruct (disk st !! Path.join (model_dir st) nm) as [net|];
      [|discriminate].
    unfold keras_predict, bind, deref. simpl. rewrite lookup_insert_eq.
    destruct (has_width (input_dim net) x) eqn:Hw; [|discriminate].
    intros [= <- <-]. exists net. simpl. rewrite lookup_insert_eq. auto.
  - rewrite (predict_falsy x nm st Hnm). unfold keras_predict, bind, deref.
    destruct (heap st !! model st) as [net|] eqn:Hnet; [|discriminate].
    destruct (has_width (input_dim net) x) eqn:Hw; [|discriminate].
    intros [= <- <-]. exists net. auto.
Qed.

End ShapeFacts.

(** X6.  Architecture is an invariant of the whole object: if, before the
    object is constructed, every network on the heap and every artifact on
    the disk (there may be none) has the architecture of [build], the same
    holds after [__init__] and any sequence of method calls: training,
    saving, loading and rebuilding never bring in another shape. *)
Theorem architecture_invariant `{Runtime} (st0 : State) (calls : list Call) :
  all_classifiers st0 ->
  all_classifiers (run_all calls (res_state (init st0)))
  /\ exists net,
       heap (run_all calls (res_state (init st0)))
         !! model (run_all calls (res_state (init st0))) = Some net
       /\ input_dim net = 10000
       /\ topology net = [(64, relu); (64, relu); (46, softmax)].
Proof.
  intros Hall.
  assert (Hinv : all_classifiers (run_all calls (res_state (init st0)))).
  { apply run_all_keeps_classifiers. now apply init_keeps_classifiers. }
  split; [exact Hinv|].
  assert (Hlive : live (run_all calls (res_state (init st0)))).
  { apply run_all_live. now destruct (init_state st0). }
  destruct Hlive as [net Hnet]. exists net. split; [exact Hnet|].
  destruct Hinv as [Hh _]. exact (Hh _ _ Hnet).
Qed.

(** [architecture_invariant] for the sample session, from nothing. *)
Lemma architecture_invariant_witness :
  all_classifiers Reference.blank
  /\ all_classifiers (run_all Reference.session (res_state (init Reference.blank))).
Proof.
  assert (H0 : all_classifiers Reference.blank).
  { split; intros k net Hk; vm_compute in Hk; discriminate. }
  split; [exact H0|].
  apply (architecture_invariant Reference.blank Reference.session H0).
Defined.

(** X7.  Under the same condition, whatever [predict] returns at any
    point of the object's life, with or without an artifact name, is one
    probability distribution over the 46 classes per input row. *)
Theorem predictions_are_distributions `{Runtime} (st0 st' : State)
    (calls : list Call) (x : mat) (nm : option string) (out : mat) :
  all_classifiers st0 ->
  predict x nm (run_all calls (res_state (init st0))) = Ok out st' ->
  length out = length x /\ Forall (distribution 46) out.
Proof.
  intros Hall Hp.
  assert (Hinv : all_classifiers (run_all calls (res_state (init st0)))).
  { apply run_all_keeps_classifiers. now apply init_keeps_classifiers. }
  assert (Hinv' : all_classifiers st').
  { pose proof (run_keeps_classifiers (CPredict x nm) _ Hinv) as Hk.
    cbn [run] in Hk. now rewrite Hp in Hk. }
  destruct (predict_returns x nm _ st' out Hp) as (net & Hnet & _ & ->).
  split; [apply length_map|].
  apply Forall_forall. intros p Hin.
  apply list_elem_of_In, in_map_iff in Hin. destruct Hin as (r & <- & _).
  apply classifier_forward. destruct Hinv' as [Hh _]. exact (Hh _ _ Hnet).
Qed.

(** [predictions_are_distributions] after the sample session. *)
Lemma predictions_are_distributions_witness :
  all_classifiers Reference.blank
  /\ exists out st',
       predict Reference.sample_data None
         (run_all Reference.session (res_state (init Reference.blank)))
         = Ok out st'
       /\ Forall (distribution 46) out.
Proof.
  assert (H0 : all_classifiers Reference.blank).
  { split; intros k net Hk; vm_compute in Hk; discriminate. }
  split; [exact H0|].
  assert (Hinv : all_classifiers
                   (run_all Reference.session (res_state (init Reference.blank)))).
  { apply run_all_keeps_classifiers. now apply init_keeps_classifiers. }
  assert (Hlive : live (run_all Reference.session
                          (res_state (init Reference.blank)))).
  { apply run_all_live. now destruct (init_state Reference.blank). }
  destruct Hlive as [net Hnet].
  assert (Hi : input_dim net = 10000).
  { destruct Hinv as [Hh _]. now destruct (Hh _ _ Hnet). }
  assert (Hp : predict Reference.sample_data None
                 (run_all Reference.session (res_state (init Reference.blank)))
               = Ok (map (forward net) Reference.sample_data)
                    (run_all Reference.session (res_state (init Reference.blank)))).
  { apply predict_held; [exact Hnet|]. rewrite Hi. vm_compute. reflexivity. }
  eexists _, _. split; [exact Hp|].
  apply (predictions_are_distributions Reference.blank _ Reference.session
           Reference.sample_data None _ H0 Hp).
Defined.

(** X8.  For any held network, also one loaded from a foreign artifact, a
    returning [predict] gives one row per input row, each as wide as the
    network's last layer (as its input when it has no layer); it returns
    only for inputs whose rows all have the network's input width. *)
Theorem predict_output_shape `{Runtime} (x : mat) (nm : option string)
    (st st' : State) (out : mat) :
  predict x nm st = Ok out st' ->
  exists net,
    heap st' !! model st' = Some net
    /\ has_width (input_dim net) x = true
    /\ length out = length x
    /\ has_width (output_dim net) out = true.
Proof.
  intros Hp. destruct (predict_returns x nm st st' out Hp) as (net & Hnet & Hw & ->).
  exists net. split; [exact Hnet|]. split; [exact Hw|]. split; [apply length_map|].
  unfold has_width in *. rewrite forallb_forall in Hw. apply forallb_forall.
  intros r Hr. apply in_map_iff in Hr. destruct Hr as (row & <- & Hrow).
  apply Nat.eqb_eq, forward_length. apply Nat.eqb_eq. now apply Hw.
Qed.

(** [predict_output_shape] on the sample object. *)
Lemma predict_output_shape_witness :
  predict Reference.sample_data None Reference.fresh_object
    = Ok (map (forward Reference.first_network) Reference.sample_data)
         Reference.fresh_object
  /\ has_width 46 (map (forward Reference.first_network) Reference.sample_data)
     = true.
Proof.
  assert (Hp : predict Reference.sample_data None Reference.fresh_object
               = Ok (map (forward Reference.first_network) Reference.sample_data)
                    Reference.fresh_object).
  { apply predict_held; vm_compute; reflexivity. }
  split; [exact Hp|].
  destruct (predict_output_shape _ _ _ _ _ Hp) as (net & Hnet & _ & _ & Hw).
  assert (Hn : heap Reference.fresh_object !! model Reference.fresh_object
               = Some Reference.first_network) by (vm_compute; reflexivity).
  rewrite Hn in Hnet. injection Hnet as <-. exact Hw.
Defined.

(* ===================================================================== *)
(** ** Training sessions *)
(* ===================================================================== *)

Section SessionFacts.

Context `{Runtime}.

Lemma vsum_le_length (v : vec) :
  Forall (fun p => (0 <= p <= 1)%R) v -> (vsum v <= INR (length v))%R.
Proof.
  induction 1 as [|p v [_ Hp] _ IH]; [simpl; lra|].
  cbn [vsum foldr length]. rewrite S_INR. unfold vsum in IH. lra.
Qed.

Lemma mean_unit_interval (v : vec) :
  Forall (fun p => (0 <= p <= 1)%R) v -> (0 <= mean v <= 1)%R.
Proof.
  intros Hv. split.
  - apply mean_nonneg. eapply Forall_impl; [exact Hv|]. simpl. tauto.
  - unfold mean. destruct v as [|p v]; [simpl; rewrite Rdiv_0_l; lra|].
    pose proof (vsum_le_length (p :: v) Hv) as Hle.
    assert (Hpos : (0 < INR (length (p :: v)))%R) by (apply lt_0_INR; simpl; lia).
    apply (Rmult_le_reg_r (INR (length (p :: v)))); [exact Hpos|].
    unfold Rdiv. rewrite Rmult_assoc, Rinv_l by lra. lra.
Qed.

Lemma hits_unit_interval (y p : mat) :
  Forall (fun a => (0 <= a <= 1)%R) (zip_with hit y p).
Proof.
  revert p. induction y as [|yi y IH]; intros p; [constructor|].
  destruct p as [|pi p]; simpl; constructor; [|apply IH].
  unfold hit. case_decide; lra.
Qed.

(** [plot_history] returns on four series of one length. *)
Lemma plot_history_returns (h : History) (st : State) (l vl a va : vec) :
  h !! "loss" = Some l -> h !! "val_loss" = Some vl ->
  h !! "acc" = Some a -> h !! "val_acc" = Some va ->
  length vl = length l -> length a = length l -> length va = length l ->
  is_ok (plot_history h st) = true.
Proof.
  intros Hl Hvl Ha Hva E1 E2 E3. unfold plot_history.
  rewrite (bind_ok _ _ _ _ _ (getitem_some h "loss" l st Hl)).
  rewrite (bind_ok _ _ _ _ _ (getitem_some h "val_loss" vl st Hvl)).
  rewrite (bind_ok _ _ _ _ _ (getitem_some h "acc" a st Ha)).
  rewrite (bind_ok _ _ _ _ _ (getitem_some h "val_acc" va st Hva)).
  rewrite bind_plt_do.
  rewrite (plt_plot_step (seq 1 (length l)) l) by apply length_seq.
  rewrite (plt_plot_step (seq 1 (length l)) vl)
    by (rewrite length_seq; congruence).
  rewrite !plt_do_step.
  rewrite (plt_plot_step (seq 1 (length l)) a)
    by (rewrite length_seq; congruence).
  rewrite (plt_plot_step (seq 1 (length l)) va)
    by (rewrite length_seq; congruence).
  rewrite !plt_do_step, plt_do_last. reflexivity.
Qed.

(** The keys of a history after at least one epoch. *)
Lemma uniform_series (n : nat) (h : History) (k : string) :
  uniform n h -> n <> 0 -> k ∈ log_keys ->
  exists v : vec, h !! k = Some v /\ length v = n.
Proof.
  intros Hu Hn Hk. specialize (Hu k). destruct (h !! k) as [v|].
  - exists v. split; [reflexivity|]. tauto.
  - destruct Hu as [Hz|Hnk]; contradiction.
Qed.

End SessionFacts.

(** X9.  The accuracy [evaluate] returns lies between 0 and 1, for every
    held network and every split it returns on; and [evaluate] never
    changes the state, whether it returns or raises. *)
Theorem evaluate_accuracy_range `{Runtime} (test : mat * mat) (st st' : State)
    (loss acc : R) :
  evaluate test st = Ok (loss, acc) st' ->
  (0 <= acc <= 1)%R /\ st' = st.
Proof.
  rewrite evaluate_eq. destruct (heap st !! model st) as [net|]; [|discriminate].
  destruct (well_shaped net test.1 test.2).
  2:{ destruct (Nat.eqb (length test.1) 0 && Nat.eqb (length test.2) 0);
        discriminate. }
  unfold eval_metrics. intros [= _ <- <-]. split; [|reflexivity].
  apply mean_unit_interval, hits_unit_interval.
Qed.

(** [evaluate_accuracy_range] on the sample object and split. *)
Lemma evaluate_accuracy_range_witness :
  exists loss acc,
    evaluate Reference.sample_split Reference.fresh_object
      = Ok (loss, acc) Reference.fresh_object
    /\ (0 <= acc <= 1)%R.
Proof.
  assert (He : evaluate Reference.sample_split Reference.fresh_object
               = Ok (eval_metrics Reference.first_network Reference.sample_data
                       Reference.sample_labels) Reference.fresh_object).
  { rewrite evaluate_eq.
    replace (heap Reference.fresh_object !! model Reference.fresh_object)
      with (Some Reference.first_network) by (vm_compute; reflexivity).
    replace (well_shaped Reference.first_network Reference.sample_split.1
               Reference.sample_split.2) with true by (vm_compute; reflexivity).
    reflexivity. }
  destruct (eval_metrics Reference.first_network Reference.sample_data
              Reference.sample_labels) as [loss acc].
  exists loss, acc. split; [exact He|].
  apply (evaluate_accuracy_range Reference.sample_split Reference.fresh_object
           Reference.fresh_object loss acc He).
Defined.

(** X10.  When [fit] raises, whatever the exception and whatever the
    reason, [train] raises the same exception at once: the history of an
    earlier run stays in [train_history], the held reference stays, no
    artifact is written and the script prints nothing. *)
Theorem train_failure_is_clean `{Runtime} (st st1 : State) (tr dv : mat * mat)
    (e b : option Z) (s : option bool) (x : Exn) :
  keras_fit (model st) tr dv (default 512%Z b) (default 1%Z e) st = Raise x st1 ->
  train tr dv e b s st = Raise x st1
  /\ train_history st1 = train_history st
  /\ model st1 = model st
  /\ disk st1 = disk st
  /\ io st1 = io st.
Proof.
  intros Hfit. split; [now rewrite train_eq, Hfit|].
  destruct (heap st !! model st) as [net|] eqn:Hnet.
  - destruct (keras_fit_state (model st) tr dv (default 512%Z b) (default 1%Z e)
                st net Hnet) as (net' & sd' & _ & _ & _ & Hst).
    rewrite Hfit in Hst. simpl in Hst. subst st1. repeat split.
  - rewrite (keras_fit_dangling st _ tr dv _ _ Hnet) in Hfit.
    injection Hfit as _ <-. repeat split.
Qed.

(** [train_failure_is_clean] for an empty training split, which the
    [fit] of [Reference] refuses. *)
Lemma train_failure_is_clean_witness :
  exists st1,
    keras_fit (model Reference.fresh_object) ([], []) Reference.sample_split
      (default 512%Z None) (default 1%Z None) Reference.fresh_object
      = Raise (ValueError "fit") st1
    /\ train ([], []) Reference.sample_split None None None Reference.fresh_object
       = Raise (ValueError "fit") st1
    /\ train_history st1 = None.
Proof.
  assert (H1 : heap Reference.fresh_object !! model Reference.fresh_object
               = Some Reference.first_network) by (vm_compute; reflexivity).
  assert (H2 : regular Reference.first_network ([], []) Reference.sample_split
                 (default 512%Z None) = false) by reflexivity.
  pose proof (keras_fit_irregular Reference.fresh_object
                (model Reference.fresh_object) ([], []) Reference.sample_split
                (default 512%Z None) (default 1%Z None)
                Reference.first_network H1 H2) as Hfit.
  cbv zeta in Hfit. cbn [fit_irregular Reference.runtime
                         Reference.runtime_logging snd] in Hfit.
  eexists. split; [exact Hfit|].
  destruct (train_failure_is_clean _ _ ([], []) Reference.sample_split
              None None None _ Hfit) as (Htrain & Hth & _).
  split; [exact Htrain|]. rewrite Hth. vm_compute. reflexivity.
Defined.

Section RegularTraining.

Context `{Runtime}.

(** A regular [train] call that can save when it is asked to. *)
Lemma train_returns (st : State) (tr dv : mat * mat) (e b : option Z)
    (s : option bool) (net : Network OptState) :
  heap st !! model st = Some net ->
  regular net tr dv (default 512%Z b) = true ->
  (default true s = true ->
   writable (Path.join (model_dir st) (name net +:+ ".h5")) st = true) ->
  train tr dv e b s st =
    let r := fit_loop (Z.to_nat (default 1%Z e)) net tr dv (default 512%Z b)
               (seed st) ∅ in
    let path := Path.join (model_dir st) (name net +:+ ".h5") in
    Ok (r.2, model st)
       (mkState (model st) (Some r.2) (model_dir st)
          (<[model st := r.1.1]> (heap st)) (uid st) r.1.2
          (if default true s then <[path := stored r.1.1]> (disk st) else disk st)
          (io st ++ (if default true s then [Write path] else [])
                 ++ [Stdout "Model trained successfully and saved in '/model'"])
          (plt st) (dirs st)).
Proof.
  intros Hnet Hreg Hdir. rewrite (train_ok st tr dv e b s net Hnet Hreg).
  destruct (fit_loop_spec (Z.to_nat (default 1%Z e)) net tr dv (default 512%Z b)
              (seed st) ∅ 0 uniform_empty) as (_ & _ & _ & Hname).
  cbv zeta. rewrite Hname.
  destruct (default true s); [rewrite Hdir by reflexivity|]; reflexivity.
Qed.

(** A history of at least one epoch under [plot_history]: it plots where
    the framework logs the accuracy as [acc], and lacks the key [acc]
    where it logs it under another name. *)
Lemma history_plot (n : nat) (h : History) (st : State) :
  uniform n h -> n <> 0 ->
  (acc_key = "acc" ->
     has_keys h = true /\ same_lengths h = true
     /\ is_ok (plot_history h st) = true)
  /\ (acc_key <> "acc" ->
        has_keys h = false
        /\ plot_history h st = Raise (KeyError "acc") st).
Proof.
  intros Hu Hn.
  assert (Hkey : forall k, k ∈ log_keys ->
            exists v : vec, h !! k = Some v /\ length v = n).
  { intros k Hk. now apply uniform_series. }
  destruct (Hkey "loss") as (l & Hl & Ll); [apply elem_of_log_keys; tauto|].
  destruct (Hkey "val_loss") as (vl & Hvl & Lvl); [apply elem_of_log_keys; tauto|].
  split.
  - intros Hacc.
    destruct (Hkey "acc") as (a & Ha & La);
      [apply elem_of_log_keys; rewrite Hacc; tauto|].
    destruct (Hkey "val_acc") as (va & Hva & Lva);
      [apply elem_of_log_keys; unfold val_key; rewrite Hacc; tauto|].
    split; [|split].
    + unfold has_keys, required_keys. cbn [forallb]. unfold vec in *.
      rewrite Hl, Hvl, Ha, Hva. rewrite !bool_decide_eq_true_2 by eauto.
      reflexivity.
    + unfold same_lengths, required_keys, series. cbn [forallb]. unfold vec in *.
      rewrite Hl, Hvl, Ha, Hva. cbn [default]. unfold Datatypes.id.
      rewrite Ll, Lvl, La, Lva, Nat.eqb_refl. reflexivity.
    + apply (plot_history_returns h _ l vl a va Hl Hvl Ha Hva); congruence.
  - intros Hacc.
    assert (Hno : h !! "acc" = None).
    { specialize (Hu "acc"). destruct (h !! "acc") as [v|]; [|reflexivity].
      destruct Hu as [_ Hin]. apply elem_of_log_keys in Hin.
      destruct Hin as [Hin|[Hin|[Hin|Hin]]]; try discriminate.
      now symmetry in Hin. }
    split.
    + unfold has_keys, required_keys. cbn [forallb]. unfold vec in *.
      rewrite Hno. rewrite (bool_decide_eq_false_2 (is_Some None))
        by (intros [? ?]; discriminate).
      now rewrite !andb_false_r.
    + unfold plot_history.
      rewrite (bind_ok _ _ _ _ _ (getitem_some h "loss" l _ Hl)).
      rewrite (bind_ok _ _ _ _ _ (getitem_some h "val_loss" vl _ Hvl)).
      apply bind_raise, getitem_none, Hno.
Qed.

End RegularTraining.

(** Under the later framework the history of the default training call
    does not plot. *)
Example later_history_does_not_plot :
  exists h st1,
    train Reference.sample_split Reference.sample_split None None None
          Reference.later_object = Ok (h, model Reference.later_object) st1
    /\ plot_history h st1 = Raise (KeyError "acc") st1.
Proof.
  assert (H1 : heap Reference.later_object !! model Reference.later_object
               = Some Reference.first_network) by (vm_compute; reflexivity).
  assert (H2 : regular Reference.first_network Reference.sample_split
                 Reference.sample_split (default 512%Z None) = true)
    by (vm_compute; reflexivity).
  assert (H3 : default true None = true ->
               writable (Path.join (model_dir Reference.later_object)
                           (name Reference.first_network +:+ ".h5"))
                 Reference.later_object = true)
    by (intros _; vm_compute; reflexivity).
  pose proof (train_returns Reference.later_object Reference.sample_split
                Reference.sample_split None None None Reference.first_network
                H1 H2 H3) as Ht.
  destruct (@fit_loop_spec Reference.later_runtime
              (Z.to_nat (default 1%Z None)) Reference.first_network
              Reference.sample_split Reference.sample_split (default 512%Z None)
              (seed Reference.later_object) ∅ 0 uniform_empty) as (Hu & _).
  cbv zeta in Ht.
  destruct (@fit_loop Reference.later_runtime
              (Z.to_nat (default 1%Z None)) Reference.first_network
              Reference.sample_split Reference.sample_split (default 512%Z None)
              (seed Reference.later_object) ∅) as [[net1 sd1] h].
  cbn [fst snd] in Ht, Hu.
  eexists h, _. split; [exact Ht|].
  apply (history_plot _ h _ Hu); [discriminate|discriminate].
Qed.

(** X11.  Training twice in a row, saving both times into an existing
    directory: the second call is regular whenever the first was
    (training keeps the shape of the network), its history replaces the
    first one and has one entry per epoch of the second run only, and, the
    name of the network being kept, the second artifact overwrites the
    first: the disk gains a single file. *)
Theorem retraining_overwrites `{Runtime} (st : State) (tr dv : mat * mat)
    (e1 e2 b : option Z) (net : Network OptState) :
  heap st !! model st = Some net ->
  regular net tr dv (default 512%Z b) = true ->
  writable (Path.join (model_dir st) (name net +:+ ".h5")) st = true ->
  exists h1 st1 h2 st2 net2,
    train tr dv e1 b None st = Ok (h1, model st) st1
    /\ train tr dv e2 b None st1 = Ok (h2, model st) st2
    /\ train_history st2 = Some h2
    /\ (forall k v, h2 !! k = Some v -> length v = Z.to_nat (default 1%Z e2))
    /\ heap st2 !! model st = Some net2
    /\ disk st2
       = <[Path.join (model_dir st) (name net +:+ ".h5") := stored net2]> (disk st).
Proof.
  intros Hnet Hreg Hdir.
  pose proof (train_returns st tr dv e1 b None net Hnet Hreg (fun _ => Hdir)) as H1.
  destruct (fit_loop_spec (Z.to_nat (default 1%Z e1)) net tr dv (default 512%Z b)
              (seed st) ∅ 0 uniform_empty) as (_ & Ht1 & Hi1 & Hn1).
  cbv zeta in H1.
  destruct (fit_loop (Z.to_nat (default 1%Z e1)) net tr dv (default 512%Z b)
              (seed st) ∅) as [[net1 sd1] h1].
  cbn [fst snd default] in H1, Ht1, Hi1, Hn1.
  match type of H1 with _ = Ok _ ?s => set (st1 := s) in * end.
  assert (Hnet1 : heap st1 !! model st1 = Some net1) by apply lookup_insert_eq.
  assert (Hreg1 : regular net1 tr dv (default 512%Z b) = true)
    by now rewrite (regular_same_shape net net1 _ _ _ Hi1 Ht1).
  assert (Hdir1 : writable (Path.join (model_dir st1) (name net1 +:+ ".h5")) st1
                  = true) by (rewrite Hn1; exact Hdir).
  pose proof (train_returns st1 tr dv e2 b None net1 Hnet1 Hreg1
                (fun _ => Hdir1)) as H2.
  destruct (fit_loop_spec (Z.to_nat (default 1%Z e2)) net1 tr dv (default 512%Z b)
              (seed st1) ∅ 0 uniform_empty) as (Hu2 & _ & _ & Hn2).
  cbv zeta in H2.
  destruct (fit_loop (Z.to_nat (default 1%Z e2)) net1 tr dv (default 512%Z b)
              (seed st1) ∅) as [[net2 sd2] h2].
  cbn [fst snd default] in H2, Hu2, Hn2.
  eexists h1, st1, h2, _, net2. split; [exact H1|]. split; [exact H2|].
  cbn [train_history heap disk]. split; [reflexivity|]. split.
  - intros k v Hkv. specialize (Hu2 k). rewrite Hkv in Hu2. tauto.
  - split; [apply lookup_insert_eq|].
    subst st1. cbn [disk model_dir]. rewrite Hn1.
    apply insert_insert_eq.
Qed.

(** [retraining_overwrites] on the sample object. *)
Lemma retraining_overwrites_witness :
  heap Reference.fresh_object !! model Reference.fresh_object
    = Some Reference.first_network
  /\ regular Reference.first_network Reference.sample_split
       Reference.sample_split (default 512%Z None) = true
  /\ writable (Path.join (model_dir Reference.fresh_object)
                 (name Reference.first_network +:+ ".h5"))
       Reference.fresh_object = true
  /\ exists h1 st1 h2 st2,
       train Reference.sample_split Reference.sample_split (Some 3%Z) None None
             Reference.fresh_object = Ok (h1, model Reference.fresh_object) st1
       /\ train Reference.sample_split Reference.sample_split (Some 2%Z) None None
                st1 = Ok (h2, model Reference.fresh_object) st2
       /\ (forall k v, h2 !! k = Some v -> length v = 2).
Proof.
  assert (H1 : heap Reference.fresh_object !! model Reference.fresh_object
               = Some Reference.first_network) by (vm_compute; reflexivity).
  assert (H2 : regular Reference.first_network Reference.sample_split
                 Reference.sample_split (default 512%Z None) = true)
    by (vm_compute; reflexivity).
  assert (H3 : writable (Path.join (model_dir Reference.fresh_object)
                           (name Reference.first_network +:+ ".h5"))
                 Reference.fresh_object = true) by (vm_compute; reflexivity).
  repeat (split; [assumption|]).
  destruct (retraining_overwrites Reference.fresh_object Reference.sample_split
              Reference.sample_split (Some 3%Z) (Some 2%Z) None
              Reference.first_network H1 H2 H3)
    as (h1 & st1 & h2 & st2 & net2 & Ha & Hb & _ & Hlen & _).
  exists h1, st1, h2, st2. repeat split; assumption.
Defined.

(** X12.  The artifact [train] writes is the one [predict] finds under the
    network's name followed by [.h5]: after a training call that saves
    into an existing directory, predicting with that artifact name gives,
    on every input, the answer of predicting with the trained network the
    object holds, although the network then held is a new one, read from
    the file. *)
Theorem trained_artifact_predicts `{Runtime} (st : State) (tr dv : mat * mat)
    (e b : option Z) (x : mat) (net : Network OptState) :
  heap st !! model st = Some net ->
  regular net tr dv (default 512%Z b) = true ->
  writable (Path.join (model_dir st) (name net +:+ ".h5")) st = true ->
  exists h st1,
    train tr dv e b None st = Ok (h, model st) st1
    /\ res_value (predict x (Some (name net +:+ ".h5")) st1)
       = res_value (predict x None st1)
    /\ model (res_state (predict x (Some (name net +:+ ".h5")) st1)) <> model st1.
Proof.
  intros Hnet Hreg Hdir.
  pose proof (train_returns st tr dv e b None net Hnet Hreg (fun _ => Hdir)) as H1.
  cbv zeta in H1.
  destruct (fit_loop (Z.to_nat (default 1%Z e)) net tr dv (default 512%Z b)
              (seed st) ∅) as [[net1 sd1] h1].
  cbn [fst snd default] in H1.
  match type of H1 with _ = Ok _ ?s => set (st1 := s) in * end.
  assert (Hheld : heap st1 !! model st1 = Some net1) by apply lookup_insert_eq.
  assert (Hfile : disk st1 !! Path.join (model_dir st1) (name net +:+ ".h5")
                  = Some (stored net1)) by apply lookup_insert_eq.
  exists h1, st1. split; [exact H1|].
  rewrite (predict_truthy x _ _ (is_empty_h5 (name net))), load_eq.
  rewrite predict_falsy by reflexivity.
  cbv zeta. rewrite Hfile. split.
  - apply (keras_predict_value _ _ x _ _ net1 (stored net1) Hheld);
      [simpl; apply lookup_insert_eq | reflexivity | apply stored_forward].
  - rewrite keras_predict_state. cbn [model set_model].
    apply fresh_ne_live. now exists net1.
Qed.

(** [trained_artifact_predicts] on the sample object. *)
Lemma trained_artifact_predicts_witness :
  heap Reference.fresh_object !! model Reference.fresh_object
    = Some Reference.first_network
  /\ regular Reference.first_network Reference.sample_split
       Reference.sample_split (default 512%Z None) = true
  /\ writable (Path.join (model_dir Reference.fresh_object)
                 (name Reference.first_network +:+ ".h5"))
       Reference.fresh_object = true
  /\ exists h st1,
       train Reference.sample_split Reference.sample_split None None None
             Reference.fresh_object = Ok (h, model Reference.fresh_object) st1
       /\ res_value (predict Reference.sample_data (Some "model_1.h5") st1)
          = res_value (predict Reference.sample_data None st1).
Proof.
  assert (H1 : heap Reference.fresh_object !! model Reference.fresh_object
               = Some Reference.first_network) by (vm_compute; reflexivity).
  assert (H2 : regular Reference.first_network Reference.sample_split
                 Reference.sample_split (default 512%Z None) = true)
    by (vm_compute; reflexivity).
  assert (H3 : writable (Path.join (model_dir Reference.fresh_object)
                           (name Reference.first_network +:+ ".h5"))
                 Reference.fresh_object = true) by (vm_compute; reflexivity).
  repeat (split; [assumption|]).
  destruct (trained_artifact_predicts Reference.fresh_object
              Reference.sample_split Reference.sample_split None None
              Reference.sample_data Reference.first_network H1 H2 H3)
    as (h & st1 & Ht & Hp & _).
  exists h, st1. split; [exact Ht|exact Hp].
Defined.

(** X13.  Whether the history of a training call can be plotted depends
    on the framework.  [plot_history] reads the accuracy under [acc] and
    [val_acc]; the history a training call of at least one epoch returns
    has it under the framework's own key.  Where that key is [acc],
    plotting the returned history does not raise; where it is any other
    name (such as [accuracy]), plotting raises [KeyError] for [acc]. *)
Theorem trained_history_plots `{Runtime} (st : State) (tr dv : mat * mat)
    (e b : option Z) (s : option bool) (net : Network OptState) :
  heap st !! model st = Some net ->
  regular net tr dv (default 512%Z b) = true ->
  (default true s = true ->
   writable (Path.join (model_dir st) (name net +:+ ".h5")) st = true) ->
  (1 <= default 1 e)%Z ->
  exists h st1,
    train tr dv e b s st = Ok (h, model st) st1
    /\ (acc_key = "acc" ->
          has_keys h = true /\ same_lengths h = true
          /\ is_ok (plot_history h st1) = true)
    /\ (acc_key <> "acc" ->
          has_keys h = false
          /\ plot_history h st1 = Raise (KeyError "acc") st1).
Proof.
  intros Hnet Hreg Hdir He.
  pose proof (train_returns st tr dv e b s net Hnet Hreg Hdir) as H1.
  destruct (fit_loop_spec (Z.to_nat (default 1%Z e)) net tr dv (default 512%Z b)
              (seed st) ∅ 0 uniform_empty) as (Hu & _).
  cbv zeta in H1.
  destruct (fit_loop (Z.to_nat (default 1%Z e)) net tr dv (default 512%Z b)
              (seed st) ∅) as [[net1 sd1] h].
  cbn [fst snd default] in H1, Hu. rewrite Nat.add_0_l in Hu.
  eexists h, _. split; [exact H1|].
  apply (history_plot _ h _ Hu). lia.
Qed.

(** [trained_history_plots] on the sample object, whose framework logs
    the accuracy as [acc]. *)
Lemma trained_history_plots_witness :
  heap Reference.fresh_object !! model Reference.fresh_object
    = Some Reference.first_network
  /\ regular Reference.first_network Reference.sample_split
       Reference.sample_split (default 512%Z None) = true
  /\ (default true None = true ->
      writable (Path.join (model_dir Reference.fresh_object)
                  (name Reference.first_network +:+ ".h5"))
        Reference.fresh_object = true)
  /\ (1 <= default 1 None)%Z
  /\ exists h st1,
       train Reference.sample_split Reference.sample_split None None None
             Reference.fresh_object = Ok (h, model Reference.fresh_object) st1
       /\ is_ok (plot_history h st1) = true.
Proof.
  assert (H1 : heap Reference.fresh_object !! model Reference.fresh_object
               = Some Reference.first_network) by (vm_compute; reflexivity).
  assert (H2 : regular Reference.first_network Reference.sample_split
                 Reference.sample_split (default 512%Z None) = true)
    by (vm_compute; reflexivity).
  assert (H3 : default true None = true ->
               writable (Path.join (model_dir Reference.fresh_object)
                           (name Reference.first_network +:+ ".h5"))
                 Reference.fresh_object = true)
    by (intros _; vm_compute; reflexivity).
  assert (H4 : (1 <= default 1 None)%Z) by (simpl; lia).
  repeat (split; [assumption|]).
  destruct (trained_history_plots Reference.fresh_object Reference.sample_split
              Reference.sample_split None None None
              Reference.first_network H1 H2 H3 H4)
    as (h & st1 & Ht & Hyes & _).
  exists h, st1. split; [exact Ht|]. now apply Hyes.
Defined.

(** X14.  With an epoch count of zero or less, a regular [train] call
    still returns (and saves, when it is asked to and the directory
    exists, and prints as usual), but no epoch runs: the history is empty,
    the network keeps its parameters, and [plot_history] on that history
    raises [KeyError] for [loss]. *)
Theorem train_without_epochs `{Runtime} (st : State) (tr dv : mat * mat)
    (e b : option Z) (s : option bool) (net : Network OptState) :
  heap st !! model st = Some net ->
  regular net tr dv (default 512%Z b) = true ->
  (default true s = true ->
   writable (Path.join (model_dir st) (name net +:+ ".h5")) st = true) ->
  (default 1 e <= 0)%Z ->
  exists st1,
    train tr dv e b s st = Ok (∅, model st) st1
    /\ train_history st1 = Some ∅
    /\ heap st1 = heap st
    /\ seed st1 = seed st
    /\ disk st1 =
         (if default true s
          then <[Path.join (model_dir st) (name net +:+ ".h5") := stored net]>
                 (disk st)
          else disk st)
    /\ plot_history ∅ st1 = Raise (KeyError "loss") st1.
Proof.
  intros Hnet Hreg Hdir He.
  pose proof (train_returns st tr dv e b s net Hnet Hreg Hdir) as H1.
  replace (Z.to_nat (default 1%Z e)) with 0 in H1 by lia.
  cbn [fit_loop fst snd] in H1. cbv zeta in H1.
  eexists. split; [exact H1|]. cbn [train_history heap seed disk].
  split; [reflexivity|]. split; [now apply insert_id|]. split; [reflexivity|].
  split; [reflexivity|].
  unfold plot_history.
  apply bind_raise, getitem_none, lookup_empty.
Qed.

(** [train_without_epochs] on the sample object, with the default
    [save_model]. *)
Lemma train_without_epochs_witness :
  heap Reference.fresh_object !! model Reference.fresh_object
    = Some Reference.first_network
  /\ regular Reference.first_network Reference.sample_split
       Reference.sample_split (default 512%Z None) = true
  /\ (default true None = true ->
      writable (Path.join (model_dir Reference.fresh_object)
                  (name Reference.first_network +:+ ".h5"))
        Reference.fresh_object = true)
  /\ (default 1 (Some 0) <= 0)%Z
  /\ exists st1,
       train Reference.sample_split Reference.sample_split (Some 0%Z) None
             None Reference.fresh_object
         = Ok (∅, model Reference.fresh_object) st1
       /\ heap st1 = heap Reference.fresh_object.
Proof.
  assert (H1 : heap Reference.fresh_object !! model Reference.fresh_object
               = Some Reference.first_network) by (vm_compute; reflexivity).
  assert (H2 : regular Reference.first_network Reference.sample_split
                 Reference.sample_split (default 512%Z None) = true)
    by (vm_compute; reflexivity).
  assert (H3 : default true None = true ->
               writable (Path.join (model_dir Reference.fresh_object)
                           (name Reference.first_network +:+ ".h5"))
                 Reference.fresh_object = true)
    by (intros _; vm_compute; reflexivity).
  assert (H4 : (default 1 (Some 0) <= 0)%Z) by (simpl; lia).
  repeat (split; [assumption|]).
  destruct (train_without_epochs Reference.fresh_object Reference.sample_split
              Reference.sample_split (Some 0%Z) None None
              Reference.first_network H1 H2 H3 H4)
    as (st1 & Ht & _ & Hh & _).
  exists st1. split; assumption.
Defined.
